(** * Price analytics of the CS2 trading bot

    A shallow embedding of the analytics core of [cs2_trading_bot.py]:
    the per-item price history kept by [PriceAnalyzer] (with its 30-day
    retention sweep), the trend classifier, the profit-potential score, the
    least-squares price forecast and the rule-based [InvestmentAdvisor].

    Python values are modelled as the interpreter has them:
    - [float] is IEEE-754 binary64, here Rocq's primitive floats, whose
      [+ - * /] and comparisons are the same operations;
    - [int] is unbounded, here [Z];
    - [str] is a sequence of Unicode code points, here [list N];
    - [dict] is a finite map, here stdpp's [gmap];
    - [datetime] is a count of microseconds, here [Z];
    - an exception is an explicit outcome of the computation. *)

From Stdlib Require Import ZArith NArith List Bool Lia String Ascii Floats.
From Stdlib Require Import QArith Qfield Sorted.
From stdpp Require Import gmap list.
Import ListNotations.

Set Warnings "-inexact-float".
#[local] Open Scope Z_scope.

(** ** Exceptions and the error monad *)

Module Py.

(** The built-in exceptions that the analytics code can meet. *)
Inductive exn : Type :=
| IndexError
| ZeroDivisionError
| ValueError
| OverflowError
| AttributeError.

(** Outcome of running a piece of Python: a value or a raised exception. *)
Inductive result (A : Type) : Type :=
| Val (a : A)
| Raise (e : exn).
Arguments Val {A} a.
Arguments Raise {A} e.

Definition bind {A B : Type} (c : result A) (k : A -> result B) : result B :=
  match c with
  | Val a => k a
  | Raise e => Raise e
  end.

(** [try: body / except (e1, e2, ...): handler]: the handler runs only for
    the exceptions listed in [caught]; any other exception propagates. *)
Definition try_except {A : Type} (body : result A) (caught : exn -> bool)
    (handler : result A) : result A :=
  match body with
  | Val a => Val a
  | Raise e => if caught e then handler else Raise e
  end.

Definition returns {A : Type} (c : result A) : Prop := exists a, c = Val a.

End Py.

Export Py.

Notation "'do' x <- c ; k" := (Py.bind c (fun x => k))
  (at level 10, x name, c at level 100, k at level 200).

(** ** Strings *)

(** A Python [str]: its code points. *)
Abbreviation pystr := (list N).

Module Str.

Definition byte_codes (s : string) : list N :=
  map (fun a : ascii => N_of_ascii a) (list_ascii_of_string s).

(** Decoder for the UTF-8 bytes of a source literal. *)
Fixpoint utf8_decode (bs : list N) : pystr :=
  match bs with
  | [] => []
  | b0 :: t0 =>
    if (b0 <? 128)%N then b0 :: utf8_decode t0
    else match t0 with
    | [] => [b0]
    | b1 :: t1 =>
      if (b0 <? 224)%N
      then ((b0 mod 32) * 64 + b1 mod 64)%N :: utf8_decode t1
      else match t1 with
      | [] => [b0]
      | b2 :: t2 =>
        if (b0 <? 240)%N
        then ((b0 mod 16) * 4096 + (b1 mod 64) * 64 + b2 mod 64)%N
               :: utf8_decode t2
        else match t2 with
        | [] => [b0]
        | b3 :: t3 =>
          ((b0 mod 8) * 262144 + (b1 mod 64) * 4096
             + (b2 mod 64) * 64 + b3 mod 64)%N :: utf8_decode t3
        end
      end
    end
  end.

(** The [str] written by a source literal. *)
Definition lit (s : string) : pystr := utf8_decode (byte_codes s).

Definition eqb (a b : pystr) : bool := bool_decide (a = b).

Fixpoint startswith (s prefix : pystr) : bool :=
  match prefix, s with
  | [], _ => true
  | _ :: _, [] => false
  | p :: prefix', c :: s' => (p =? c)%N && startswith s' prefix'
  end.

(** [sub in s]: [sub] occurs in [s] as a contiguous run. *)
Fixpoint contains (sub s : pystr) : bool :=
  startswith s sub ||
  match s with
  | [] => false
  | _ :: s' => contains sub s'
  end.

(** [s.replace(c, '')] for a one-character [c]. *)
Definition remove_char (c : N) (s : pystr) : pystr :=
  List.filter (fun x => negb (x =? c)%N) s.

(** Lower-casing of one code point, for the scripts the bot's labels use:
    Basic Latin, and the Cyrillic block (U+0400..U+042F). *)
Definition lower_cp (c : N) : N :=
  if ((65 <=? c) && (c <=? 90))%N then (c + 32)%N
  else if ((1024 <=? c) && (c <=? 1039))%N then (c + 80)%N
  else if ((1040 <=? c) && (c <=? 1071))%N then (c + 32)%N
  else c.

Definition lower_basic (s : pystr) : pystr := map lower_cp s.

Definition is_digit (c : N) : bool := ((48 <=? c) && (c <=? 57))%N.

Fixpoint digits_value (acc : Z) (s : pystr) : option Z :=
  match s with
  | [] => Some acc
  | c :: s' =>
    if is_digit c then digits_value (10 * acc + Z.of_N (c - 48)) s'
    else None
  end.

(** [int(s)] on plain decimal text: an optional sign and ASCII digits. *)
Definition int_decimal (s : pystr) : option Z :=
  match s with
  | [] => None
  | 45%N :: ((_ :: _) as d) => option_map Z.opp (digits_value 0 d)
  | 43%N :: ((_ :: _) as d) => digits_value 0 d
  | d => digits_value 0 d
  end.

End Str.

(** ** Floats and integers *)

Module Num.

#[local] Open Scope float_scope.

(** [int(x)] for a float [x]: truncation toward zero; [ValueError] on NaN
    and [OverflowError] on an infinity. *)
Definition int_of_float (x : float) : result Z :=
  match Prim2SF x with
  | S754_nan => Raise ValueError
  | S754_infinity _ => Raise OverflowError
  | S754_zero _ => Val 0%Z
  | S754_finite s m e =>
    let mag := if (0 <=? e)%Z then Z.shiftl (Z.pos m) e
               else Z.shiftr (Z.pos m) (- e) in
    Val (if s then (- mag)%Z else mag)
  end.

(** Nearest float of an integer (ties to even); an infinity past the range. *)
Definition Z_to_float (z : Z) : float :=
  SF2Prim (binary_normalize prec emax z 0 false).

(** Implicit conversion of an [int] operand in mixed arithmetic:
    [OverflowError] when the integer is too large for a float. *)
Definition float_of_int (z : Z) : result float :=
  let f := Z_to_float z in
  if is_infinity f then Raise OverflowError else Val f.

(** [a / b] on floats: [ZeroDivisionError] when [b == 0]. *)
Definition div (a b : float) : result float :=
  if b =? 0 then Raise ZeroDivisionError else Val (a / b).

(** [a / b] on integers (true division). The quotient of the converted
    operands is the correctly rounded quotient whenever both are below
    [2^53] in magnitude, as the window lengths divided here are. *)
Definition int_truediv (a b : Z) : result float :=
  if (b =? 0)%Z then Raise ZeroDivisionError
  else
    do fa <- float_of_int a;
    do fb <- float_of_int b;
    Val (fa / fb).

(** [x ** 2] on a float: [OverflowError] when a finite [x] overflows. The
    square is taken as the rounded product. *)
Definition pow2 (x : float) : result float :=
  let r := x * x in
  if is_infinity r && negb (is_infinity x) then Raise OverflowError
  else Val r.

(** [sum(xs)]: left-to-right addition from the integer [0] (interpreters
    that compensate the rounding of [sum] agree wherever the partial sums
    are exact). *)
Definition sum (xs : list float) : float := fold_left PrimFloat.add xs 0.

(** [min(xs)]: keeps the first element unless a later one is [<] it. *)
Definition min (xs : list float) : result float :=
  match xs with
  | [] => Raise ValueError
  | x :: rest => Val (fold_left (fun m y => if y <? m then y else m) rest x)
  end.

(** [max(xs)]: keeps the first element unless a later one is [>] it. *)
Definition max (xs : list float) : result float :=
  match xs with
  | [] => Raise ValueError
  | x :: rest => Val (fold_left (fun m y => if m <? y then y else m) rest x)
  end.

End Num.

(** ** Sequences *)

Module Seq.

(** [xs[i]] with Python's negative indices; [IndexError] out of range. *)
Definition index {A : Type} (xs : list A) (i : Z) : result A :=
  let j := if i <? 0 then Z.of_nat (length xs) + i else i in
  if j <? 0 then Raise IndexError
  else match nth_error xs (Z.to_nat j) with
       | Some a => Val a
       | None => Raise IndexError
       end.

(** [xs[-k:]] for a positive [k]: the last [k] items, all when fewer. *)
Definition last_n {A : Type} (k : nat) (xs : list A) : list A :=
  skipn (length xs - k) xs.

(** [range(n)]. *)
Definition range (n : Z) : list Z := map Z.of_nat (seq 0 (Z.to_nat n)).

(** [all(f(i) for i in idx)]: stops at the first false item; an exception
    raised by an item propagates. *)
Fixpoint all_of (f : Z -> result bool) (idx : list Z) : result bool :=
  match idx with
  | [] => Val true
  | i :: idx' =>
    do b <- f i;
    if b then all_of f idx' else Val false
  end.

(** Collecting [f(i) for i in idx]; the first exception propagates. *)
Fixpoint collect {A : Type} (f : Z -> result A) (idx : list Z)
    : result (list A) :=
  match idx with
  | [] => Val []
  | i :: idx' =>
    do a <- f i;
    do rest <- collect f idx';
    Val (a :: rest)
  end.

End Seq.

(** ** Data model *)

(** A [datetime], counted in microseconds. *)
Abbreviation datetime := Z (only parsing).

(** [timedelta(days=d)]. *)
Definition timedelta_days (d : Z) : Z := d * 86400 * 1000000.

(** One entry of a price series: [{'price': ..., 'timestamp': ...}]. *)
Record PricePoint : Type := {
  price : float;
  timestamp : datetime
}.

(** [PriceAnalyzer.price_history]: item name to its series, oldest first. *)
Abbreviation history := (gmap pystr (list PricePoint)).

(** The labels returned by [detect_trend]. *)
Inductive TrendLabel : Type :=
| InsufficientData
| StableGrowth
| Decline
| StrongGrowth
| StrongDecline
| Stable.

(** The text of each label, as the source writes it. *)
Definition trend_text (l : TrendLabel) : pystr :=
  match l with
  | InsufficientData => Str.lit "📊 Недостаточно данных"
  | StableGrowth => Str.lit "📈 Стабильный рост"
  | Decline => Str.lit "📉 Падение цены"
  | StrongGrowth => Str.lit "💹 Сильный рост (+10%+)"
  | StrongDecline => Str.lit "⚠️ Сильное падение (-10%+)"
  | Stable => Str.lit "➡️ Стабильная цена"
  end.

(** The ['prediction'] field of a forecast. *)
Inductive Direction : Type :=
| neutral
| bullish
| bearish.

(** The ['message'] field of a forecast; the numbers an f-string formats are
    kept as they are. *)
Inductive Message : Type :=
| MsgInsufficientData
| MsgDataError
| MsgCalcError
| MsgGrowth (change_percent : float) (days : Z)
| MsgFall (abs_change_percent : float) (days : Z)
| MsgStable (days : Z).

Record Prediction : Type := {
  prediction : Direction;
  confidence : Z;
  message : Message
}.

(** ** PriceAnalyzer *)

Module PriceAnalyzer.

#[local] Open Scope float_scope.

(** [__init__]: an empty history. *)
Definition init : history := ∅.

(** [add_price_point]. [now1] and [now2] are the two readings of
    [datetime.now()], the first stamped on the new point, the second used
    for the cutoff. *)
Definition add_price_point (self : history) (item_name : pystr)
    (price : float) (now1 now2 : datetime) : history :=
  let self1 :=
    match self !! item_name with
    | None => <[item_name := []]> self
    | Some _ => self
    end in
  let appended :=
    default [] (self1 !! item_name)
      ++ [{| price := price; timestamp := now1 |}] in
  let self2 := <[item_name := appended]> self1 in
  let cutoff := (now2 - timedelta_days 30)%Z in
  <[item_name :=
      List.filter (fun p => (cutoff <? timestamp p)%Z)
        (default [] (self2 !! item_name))]> self2.

(** [prices[i] < prices[i+1]] and [prices[i] > prices[i+1]]. *)
Definition rising_at (prices : list float) (i : Z) : result bool :=
  do a <- Seq.index prices i;
  do b <- Seq.index prices (i + 1);
  Val (a <? b).

Definition falling_at (prices : list float) (i : Z) : result bool :=
  do a <- Seq.index prices i;
  do b <- Seq.index prices (i + 1);
  Val (b <? a).

Definition detect_trend (self : history) (item_name : pystr) : result pystr :=
  match self !! item_name with
  | None => Val (trend_text InsufficientData)
  | Some hist =>
    if (length hist <? 3)%nat then Val (trend_text InsufficientData)
    else
      let recent := Seq.last_n 7 hist in
      let prices := map price recent in
      if (length prices <? 2)%nat then Val (trend_text InsufficientData)
      else
        try_except
          (let idx := Seq.range (Z.of_nat (length prices) - 1) in
           do up <- Seq.all_of (rising_at prices) idx;
           if up then Val (trend_text StableGrowth)
           else
             do down <- Seq.all_of (falling_at prices) idx;
             if down then Val (trend_text Decline)
             else
               do last <- Seq.index prices (-1);
               do first <- Seq.index prices 0;
               if first * 1.1 <? last then Val (trend_text StrongGrowth)
               else if last <? first * 0.9
                    then Val (trend_text StrongDecline)
                    else Val (trend_text Stable))
          (fun e => match e with
                    | IndexError | ZeroDivisionError => true
                    | _ => false
                    end)
          (Val (trend_text InsufficientData))
  end.

Definition calculate_profit_potential (self : history) (item_name : pystr)
    : result Z :=
  match self !! item_name with
  | None => Val 50%Z
  | Some hist =>
    if (length hist <? 5)%nat then Val 50%Z
    else
      let recent := Seq.last_n 14 hist in
      let prices := map price recent in
      try_except
        (do min_price <- Num.min prices;
         do max_price <- Num.max prices;
         if min_price =? 0 then Val 50%Z
         else
           do spread <- Num.div (max_price - min_price) min_price;
           let volatility := spread * 100 in
           do last <- Seq.index prices (-1);
           do first <- Seq.index prices 0;
           do first' <- Seq.index prices 0;
           do growth <- Num.div (last - first) first';
           let trend := growth * 100 in
           let potential := 50 + trend * 2 + volatility * 0.5 in
           do whole <- Num.int_of_float potential;
           Val (Z.max 0 (Z.min 100 whole)))
        (fun e => match e with
                  | ZeroDivisionError | ValueError => true
                  | _ => false
                  end)
        (Val 50%Z)
  end.

(** One term of the numerator: [(i - x_mean) * (prices[i] - y_mean)]. *)
Definition numerator_term (prices : list float) (x_mean y_mean : float)
    (i : Z) : result float :=
  do fi <- Num.float_of_int i;
  do p <- Seq.index prices i;
  Val ((fi - x_mean) * (p - y_mean)).

(** One term of the denominator: [(i - x_mean) ** 2]. *)
Definition denominator_term (x_mean : float) (i : Z) : result float :=
  do fi <- Num.float_of_int i;
  Num.pow2 (fi - x_mean).

(** The regression of [predict_price], up to [change_percent]; [None] is the
    early return taken when the current price is zero. *)
Definition fit_change_percent (prices : list float) (days : Z)
    : result (option float) :=
  let n := Z.of_nat (length prices) in
  do x_mean <- Num.int_truediv n 2;
  do fn <- Num.float_of_int n;
  do y_mean <- Num.div (Num.sum prices) fn;
  do num_terms <- Seq.collect (numerator_term prices x_mean y_mean)
                    (Seq.range n);
  let numerator := Num.sum num_terms in
  do den_terms <- Seq.collect (denominator_term x_mean) (Seq.range n);
  let denominator := Num.sum den_terms in
  do predicted_change <-
    (if denominator =? 0 then Val 0
     else
       do slope <- Num.div numerator denominator;
       do fdays <- Num.float_of_int days;
       Val (slope * fdays));
  do current_price <- Seq.index prices (-1);
  if current_price =? 0 then Val None
  else
    do ratio <- Num.div predicted_change current_price;
    Val (Some (ratio * 100)).

Definition insufficient_data : Prediction :=
  {| prediction := neutral; confidence := 0; message := MsgInsufficientData |}.

Definition data_error : Prediction :=
  {| prediction := neutral; confidence := 0; message := MsgDataError |}.

Definition calc_error : Prediction :=
  {| prediction := neutral; confidence := 0; message := MsgCalcError |}.

(** The three-way classification that ends [predict_price]. *)
Definition classify_change (change_percent : float) (days : Z)
    : result Prediction :=
  if 5 <? change_percent then
    do c <- Num.int_of_float (60 + abs change_percent);
    Val {| prediction := bullish; confidence := Z.min 85 c;
           message := MsgGrowth change_percent days |}
  else if change_percent <? -5 then
    do c <- Num.int_of_float (60 + abs change_percent);
    Val {| prediction := bearish; confidence := Z.min 85 c;
           message := MsgFall (abs change_percent) days |}
  else
    Val {| prediction := neutral; confidence := 70;
           message := MsgStable days |}.

Definition predict_price (self : history) (item_name : pystr) (days : Z)
    : result Prediction :=
  match self !! item_name with
  | None => Val insufficient_data
  | Some hist =>
    if (length hist <? 10)%nat then Val insufficient_data
    else
      let data := Seq.last_n 30 hist in
      let prices := map price data in
      try_except
        (do fitted <- fit_change_percent prices days;
         match fitted with
         | None => Val data_error
         | Some change_percent => classify_change change_percent days
         end)
        (fun e => match e with
                  | ZeroDivisionError | ValueError | IndexError => true
                  | _ => false
                  end)
        (Val calc_error)
  end.

End PriceAnalyzer.

(** ** InvestmentAdvisor *)

(** The dictionary built and returned by [analyze_item]. *)
Record Analysis : Type := {
  rating : Z;
  recommendation : pystr;
  strategy : pystr;
  pros : list pystr;
  cons : list pystr
}.

Module InvestmentAdvisor.

Definition set_rating (r : Z) (a : Analysis) : Analysis :=
  {| rating := r; recommendation := recommendation a;
     strategy := strategy a; pros := pros a; cons := cons a |}.

Definition set_advice (rec strat : pystr) (a : Analysis) : Analysis :=
  {| rating := rating a; recommendation := rec;
     strategy := strat; pros := pros a; cons := cons a |}.

Definition append_pro (t : pystr) (a : Analysis) : Analysis :=
  {| rating := rating a; recommendation := recommendation a;
     strategy := strategy a; pros := pros a ++ [t]; cons := cons a |}.

Definition append_con (t : pystr) (a : Analysis) : Analysis :=
  {| rating := rating a; recommendation := recommendation a;
     strategy := strategy a; pros := pros a; cons := cons a ++ [t] |}.

Section Builtins.

(** The two string built-ins the advisor calls: [str.lower], and [int] on a
    string, [None] standing for its [ValueError]. *)
Variable str_lower : pystr -> pystr.
Variable int_of_str : pystr -> option Z.

Definition parse_int (s : pystr) : result Z :=
  match int_of_str s with
  | Some v => Val v
  | None => Raise ValueError
  end.

(** [analyze_item]. The quote [price_data] maps field names to the text of
    their values. The local [rating] and the dictionary under construction
    are threaded as a pair. *)
Definition analyze_item (price_data : gmap pystr pystr) (trend : pystr)
    (potential : Z) (mode : pystr) : result Analysis :=
  let analysis :=
    {| rating := 0; recommendation := []; strategy := [];
       pros := []; cons := [] |} in
  let s0 := (50, analysis) in
  let s1 :=
    if Str.contains (Str.lit "рост") (str_lower trend)
    then (fst s0 + 15, append_pro (Str.lit "📈 Положительный тренд") (snd s0))
    else s0 in
  do s2 <-
    try_except
      (let volume_str :=
         Str.remove_char 44
           (default (Str.lit "0") (price_data !! Str.lit "volume")) in
       do volume <- parse_int volume_str;
       if 100 <? volume
       then Val (fst s1 + 10,
                 append_pro (Str.lit "💰 Высокая ликвидность") (snd s1))
       else Val s1)
      (fun e => match e with
                | ValueError | AttributeError => true
                | _ => false
                end)
      (Val s1);
  let s3 :=
    if 70 <? potential
    then (fst s2 + 10, append_pro (Str.lit "⚡ Высокий потенциал") (snd s2))
    else s2 in
  let s4 :=
    if Str.contains (Str.lit "падение") (str_lower trend)
    then (fst s3 - 15, append_con (Str.lit "📉 Отрицательный тренд") (snd s3))
    else s3 in
  let analysis := set_rating (Z.max 0 (Z.min 100 (fst s4))) (snd s4) in
  if Str.eqb mode (Str.lit "investor") then
    if 70 <? rating analysis then
      Val (set_advice (Str.lit "🟢 ПОКУПАТЬ")
             (Str.lit "Держать 3-6 месяцев, продать при +20-30%") analysis)
    else if 50 <? rating analysis then
      Val (set_advice (Str.lit "🟡 НАБЛЮДАТЬ")
             (Str.lit "Дождаться подтверждения тренда") analysis)
    else
      Val (set_advice (Str.lit "🔴 НЕ ПОКУПАТЬ")
             (Str.lit "Высокий риск, искать альтернативы") analysis)
  else
    if 60 <? rating analysis then
      Val (set_advice (Str.lit "🟢 ПОКУПАТЬ")
             (Str.lit "Держать 1-2 недели, фиксировать при +10-15%") analysis)
    else if 45 <? rating analysis then
      Val (set_advice (Str.lit "🟡 ВОЗМОЖНА ПОКУПКА")
             (Str.lit "Стоп-лосс на -5%") analysis)
    else
      Val (set_advice (Str.lit "🔴 ПРОПУСТИТЬ")
             (Str.lit "Недостаточно волатильности") analysis).

End Builtins.

End InvestmentAdvisor.

(** ** The rubric of the advisor, as the design document words it *)

Module Rubric.

Inductive Mode : Type :=
| Investor
| Trader.

Inductive Recommendation : Type :=
| Buy
| Watch
| Avoid
| ConditionalBuy
| Skip.

(** The mode a mode string selects: everything but ['investor'] takes the
    second branch. *)
Definition mode_of (mode : pystr) : Mode :=
  if Str.eqb mode (Str.lit "investor") then Investor else Trader.

(** Mode-dependent thresholds on the rating. *)
Definition recommend (m : Mode) (r : Z) : Recommendation :=
  match m with
  | Investor => if 70 <? r then Buy else if 50 <? r then Watch else Avoid
  | Trader => if 60 <? r then Buy else if 45 <? r then ConditionalBuy else Skip
  end.

Definition recommendation_text (r : Recommendation) : pystr :=
  match r with
  | Buy => Str.lit "🟢 ПОКУПАТЬ"
  | Watch => Str.lit "🟡 НАБЛЮДАТЬ"
  | Avoid => Str.lit "🔴 НЕ ПОКУПАТЬ"
  | ConditionalBuy => Str.lit "🟡 ВОЗМОЖНА ПОКУПКА"
  | Skip => Str.lit "🔴 ПРОПУСТИТЬ"
  end.

Definition strategy_text (m : Mode) (r : Recommendation) : pystr :=
  match m, r with
  | Investor, Buy => Str.lit "Держать 3-6 месяцев, продать при +20-30%"
  | Trader, Buy => Str.lit "Держать 1-2 недели, фиксировать при +10-15%"
  | _, Watch => Str.lit "Дождаться подтверждения тренда"
  | _, Avoid => Str.lit "Высокий риск, искать альтернативы"
  | _, ConditionalBuy => Str.lit "Стоп-лосс на -5%"
  | _, Skip => Str.lit "Недостаточно волатильности"
  end.

(** Growth-bearing and decline-bearing trend labels. *)
Definition growth_bearing (l : TrendLabel) : bool :=
  match l with
  | StableGrowth | StrongGrowth => true
  | _ => false
  end.

Definition decline_bearing (l : TrendLabel) : bool :=
  match l with
  | Decline | StrongDecline => true
  | _ => false
  end.

(** The quote's volume, comma-stripped and parsed, exceeds 100; a field that
    does not parse counts for nothing. *)
Definition liquid (int_of_str : pystr -> option Z)
    (price_data : gmap pystr pystr) : bool :=
  match int_of_str
          (Str.remove_char 44
             (default (Str.lit "0") (price_data !! Str.lit "volume"))) with
  | Some v => 100 <? v
  | None => false
  end.

Definition bonus (applies : bool) (points : Z) : Z :=
  if applies then points else 0.

(** Base 50 and the four additive adjustments, clamped to [0,100]. *)
Definition rubric_rating (growth liquid high_potential declining : bool) : Z :=
  Z.max 0
    (Z.min 100
       (50 + bonus growth 15 + bonus liquid 10 + bonus high_potential 10
          - bonus declining 15)).

End Rubric.

(** ** Sequences of insertions *)

Module Store.

(** One call of [add_price_point], with its two clock readings. *)
Record Insert : Type := {
  ins_item : pystr;
  ins_price : float;
  ins_now1 : datetime;
  ins_now2 : datetime
}.

Definition apply (self : history) (o : Insert) : history :=
  PriceAnalyzer.add_price_point self (ins_item o) (ins_price o)
    (ins_now1 o) (ins_now2 o).

(** The calls of [ops] made one after the other. *)
Definition record_all (self : history) (ops : list Insert) : history :=
  fold_left apply ops self.

(** The latest call of [ops] made on [item], if any. *)
Definition last_insert (item : pystr) (ops : list Insert) : option Insert :=
  fold_left (fun found o => if decide (ins_item o = item) then Some o else found)
    ops None.

(** A point is inside the retention window that ends at [now]. *)
Definition retained (now : datetime) (p : PricePoint) : Prop :=
  now - timedelta_days 30 < timestamp p.

(** The prices the data model excludes: negative or not finite. *)
Definition invalid_price (p : float) : bool :=
  is_nan p || is_infinity p || (p <? 0)%float.

(** Two calls on one item, 31 days apart. *)
Definition early_call : Insert :=
  {| ins_item := Str.lit "AK-47"; ins_price := 10%float;
     ins_now1 := 0; ins_now2 := 1 |}.

Definition late_call : Insert :=
  {| ins_item := Str.lit "AK-47"; ins_price := 11%float;
     ins_now1 := timedelta_days 31; ins_now2 := timedelta_days 31 + 1 |}.

(** The history obtained by recording [prices] for [item], one call each,
    all at one instant. *)
Definition observe (item : pystr) (prices : list float) : history :=
  record_all PriceAnalyzer.init
    (map (fun p => {| ins_item := item; ins_price := p;
                      ins_now1 := 0; ins_now2 := 0 |}) prices).

(** The series stored for [item]; empty when the item is unknown. *)
Definition series (self : history) (item : pystr) : list PricePoint :=
  default [] (self !! item).

End Store.

(** ** The trend rules, as the design document words them *)

Module Classifier.

#[local] Open Scope float_scope.

(** Every consecutive pair of the list is related by [rel]. *)
Fixpoint consecutive (rel : float -> float -> bool) (l : list float) : bool :=
  match l with
  | a :: ((b :: _) as rest) => rel a b && consecutive rel rest
  | _ => true
  end.

Definition strictly_increasing : list float -> bool :=
  consecutive (fun a b => a <? b).

Definition strictly_decreasing : list float -> bool :=
  consecutive (fun a b => b <? a).

Definition first_price (w : list float) : float := hd 0 w.

Definition last_price (w : list float) : float := List.last w 0.

(** The five rules, in their priority order. *)
Definition classify (w : list float) : TrendLabel :=
  if strictly_increasing w then StableGrowth
  else if strictly_decreasing w then Decline
  else if first_price w * 1.1 <? last_price w then StrongGrowth
  else if last_price w <? first_price w * 0.9 then StrongDecline
  else Stable.

(** A window that is not monotonic and ends more than 10% above its start,
    and one too short to classify. *)
Definition mixed_rise : list float := [10; 10.2; 10.1; 9.9; 11.3].

Definition two_points : list float := [10; 11].

End Classifier.

(** ** The profit-potential score, as the design document words it *)

Module Scorer.

#[local] Open Scope float_scope.

(** Minimum and maximum of a window. *)
Definition lowest (w : list float) : float :=
  match w with
  | [] => 0
  | x :: rest => fold_left (fun m y => if y <? m then y else m) rest x
  end.

Definition highest (w : list float) : float :=
  match w with
  | [] => 0
  | x :: rest => fold_left (fun m y => if m <? y then y else m) rest x
  end.

(** [volatility = (max - min) / min * 100]. *)
Definition volatility (w : list float) : float :=
  (highest w - lowest w) / lowest w * 100.

(** [trend = (last - first) / first * 100]. *)
Definition trend (w : list float) : float :=
  (Classifier.last_price w - Classifier.first_price w)
    / Classifier.first_price w * 100.

(** [50 + 2 * trend + 0.5 * volatility], before truncation and clamping. *)
Definition raw_potential (w : list float) : float :=
  50 + trend w * 2 + volatility w * 0.5.

(** Thirteen prices of 100 followed by one of 150. *)
Definition jump_window : list float :=
  repeat 100 13 ++ [150].

(** Four tiny prices followed by a huge one, all finite. *)
Definition spike_window : list float :=
  repeat 1e-200 4 ++ [1e200].

End Scorer.

(** ** The forecast, as the design document words it *)

Module Forecast.

#[local] Open Scope float_scope.

(** The float of a (small) natural number. *)
Definition of_nat (i : nat) : float := Num.Z_to_float (Z.of_nat i).

(** The value the source calls [x_mean]: [n / 2]. *)
Definition x_mean (n : nat) : float := of_nat n / 2.

(** [y_mean]: the mean of the prices. *)
Definition y_mean (w : list float) : float :=
  Num.sum w / of_nat (length w).

(** [i - x_mean]. *)
Definition dx (n i : nat) : float := of_nat i - x_mean n.

(** The sum of [(i - x_mean) * (p_i - y_mean)] over the window. *)
Definition numerator (w : list float) : float :=
  Num.sum
    (map (fun ip : nat * float =>
            dx (length w) (fst ip) * (snd ip - y_mean w))
       (combine (seq 0 (length w)) w)).

(** The sum of [(i - x_mean) ** 2] over the indices. *)
Definition denominator (n : nat) : float :=
  Num.sum (map (fun i => dx n i * dx n i) (seq 0 n)).

Definition slope (w : list float) : float :=
  numerator w / denominator (length w).

(** [change_percent = slope * days / last_price * 100]. *)
Definition change_percent (w : list float) (days : float) : float :=
  slope w * days / Classifier.last_price w * 100.

(** The ordinary least-squares slope of the prices against their indices
    [0..n-1]: deviations taken from the mean index [(n-1)/2]. *)
Definition mean_index (n : nat) : float := of_nat (n - 1) / 2.

Definition ols_slope (w : list float) : float :=
  let n := length w in
  Num.sum
    (map (fun ip : nat * float =>
            (of_nat (fst ip) - mean_index n) * (snd ip - y_mean w))
       (combine (seq 0 n) w))
  / Num.sum
      (map (fun i => (of_nat i - mean_index n) * (of_nat i - mean_index n))
         (seq 0 n)).

(** The linear series [a, a + 2, a + 4, ...] of [n] points. *)
Definition linear_series (a : float) (n : nat) : list float :=
  map (fun i => a + 2 * of_nat i) (seq 0 n).

(** Example windows of ten points: rising by 2, falling by 2, flat, ending
    at zero, and nine huge prices followed by a tiny one (all finite). *)
Definition rising_window : list float := linear_series 10 10.


Definition flat_window : list float := repeat 10 10.


Definition collapse_window : list float := repeat 1e300 9 ++ [1e-300].

End Forecast.

(** ** The regression in exact arithmetic *)

(** The sums of [predict_price] read over the rationals, where nothing is
    rounded: what the formula itself computes. *)
Module ExactFit.

#[local] Open Scope Q_scope.

Definition of_nat (i : nat) : Q := inject_Z (Z.of_nat i).

Definition sum (xs : list Q) : Q := fold_left Qplus xs 0.

Definition x_mean (n : nat) : Q := of_nat n / 2.

Definition y_mean (w : list Q) : Q := sum w / of_nat (length w).

Definition numerator (w : list Q) : Q :=
  sum (map (fun ip : nat * Q =>
              (of_nat (fst ip) - x_mean (length w)) * (snd ip - y_mean w))
         (combine (seq 0 (length w)) w)).

Definition denominator (n : nat) : Q :=
  sum (map (fun i => (of_nat i - x_mean n) ^ 2) (seq 0 n)).

Definition slope (w : list Q) : Q :=
  if Qeq_bool (denominator (length w)) 0 then 0
  else numerator w / denominator (length w).

Definition linear_series (a : Q) (n : nat) : list Q :=
  map (fun i => a + 2 * of_nat i) (seq 0 n).

(** The least-squares slope against the indices [0..n-1], deviations taken
    from their mean [(n-1)/2]. *)
Definition mean_index (n : nat) : Q := (of_nat n - 1) / 2.

Definition ols_numerator (w : list Q) : Q :=
  sum (map (fun ip : nat * Q =>
              (of_nat (fst ip) - mean_index (length w)) * (snd ip - y_mean w))
         (combine (seq 0 (length w)) w)).

Definition ols_denominator (n : nat) : Q :=
  sum (map (fun i => (of_nat i - mean_index n) ^ 2) (seq 0 n)).

Definition ols_slope (w : list Q) : Q :=
  ols_numerator w / ols_denominator (length w).

End ExactFit.

(** ** NewsParser *)

Module NewsParser.



(** The three impact labels. *)
Definition HIGH : pystr := Str.lit "🔥 Высокое".
Definition MEDIUM : pystr := Str.lit "⚠️ Среднее".
Definition LOW : pystr := Str.lit "ℹ️ Низкое".

Section Builtins.

(** [str.lower], as for the advisor. *)
Variable str_lower : pystr -> pystr.



End Builtins.

End NewsParser.

(** ** The handlers: users, portfolios and the news cache *)

Module Bot.

(** [POPULAR_ITEMS]. *)
Definition POPULAR_ITEMS : list pystr :=
  [ Str.lit "AK-47 | Redline (Field-Tested)";
    Str.lit "AWP | Asiimov (Field-Tested)";
    Str.lit "M4A4 | Howl (Factory New)";
    Str.lit "Desert Eagle | Blaze (Factory New)";
    Str.lit "USP-S | Orion (Factory New)";
    Str.lit "Glock-18 | Fade (Factory New)";
    Str.lit "Karambit | Doppler (Factory New)";
    Str.lit "Butterfly Knife | Fade (Factory New)" ].

(** The record kept per user in [user_data]. *)
Record User : Type := {
  mode : pystr;
  portfolio : list Z;
  notifications : bool;
  alerts : list pystr
}.

(** [user_data]: a dictionary keyed by user id, in insertion order. *)
Abbreviation users := (list (Z * User)).

(** [d[k]] as a lookup; [None] stands for its [KeyError]. *)
Fixpoint get (d : users) (k : Z) : option User :=
  match d with
  | [] => None
  | (k', u) :: rest => if Z.eqb k' k then Some u else get rest k
  end.

(** [d[k] = u]: replaces the entry in place, or appends a new one. *)
Fixpoint set (d : users) (k : Z) (u : User) : users :=
  match d with
  | [] => [(k, u)]
  | (k', u') :: rest =>
    if Z.eqb k' k then (k, u) :: rest else (k', u') :: set rest k u
  end.

(** The record given to a new user by [start] and [portfolio_command]. *)
Definition new_user : User :=
  {| mode := Str.lit "investor"; portfolio := [];
     notifications := true; alerts := [] |}.

(** [if user_id not in user_data: user_data[user_id] = {...}]. *)
Definition register (user_data : users) (user_id : Z) : users :=
  match get user_data user_id with
  | Some _ => user_data
  | None => set user_data user_id new_user
  end.

(** [item_idx in portfolio]. *)
Definition holds (portfolio : list Z) (item_idx : Z) : bool :=
  existsb (Z.eqb item_idx) portfolio.

(** [add_to_portfolio]: the new [user_data] and the text answered. *)
Definition add_to_portfolio (user_data : users) (user_id item_idx : Z)
    : option (users * pystr) :=
  match get user_data user_id with
  | None => None
  | Some u =>
    if negb (holds (portfolio u) item_idx) then
      Some (set user_data user_id
              {| mode := mode u; portfolio := portfolio u ++ [item_idx];
                 notifications := notifications u; alerts := alerts u |},
            Str.lit "✅ Добавлено в портфель!")
    else Some (user_data, Str.lit "ℹ️ Уже в портфеле")
  end.

(** [s.replace(pat, '')] for a non-empty [pat]: the occurrences of [pat],
    found left to right without overlap, are dropped. [skip] counts the
    characters of a found occurrence still to drop. *)
Fixpoint remove_from (pat : pystr) (skip : nat) (s : pystr) : pystr :=
  match s with
  | [] => []
  | c :: s' =>
    match skip with
    | S k => remove_from pat k s'
    | O =>
      if Str.startswith s pat then remove_from pat (length pat - 1) s'
      else c :: remove_from pat 0 s'
    end
  end.

Definition remove_all (pat s : pystr) : pystr := remove_from pat 0 s.

(** The table [modes] of [handle_mode_change], with its default. *)
Definition mode_name (mode : pystr) : pystr :=
  if Str.eqb mode (Str.lit "investor") then Str.lit "💎 Инвестор"
  else if Str.eqb mode (Str.lit "trader") then Str.lit "⚡ Трейдер"
  else if Str.eqb mode (Str.lit "news") then Str.lit "📰 Новости"
  else Str.lit "💎 Инвестор".

(** [handle_mode_change]: the new [user_data] and the name shown. *)
Definition handle_mode_change (user_data : users) (user_id : Z) (data : pystr)
    : option (users * pystr) :=
  let mode' := remove_all (Str.lit "mode_") data in
  match get user_data user_id with
  | None => None
  | Some u =>
    Some (set user_data user_id
            {| mode := mode'; portfolio := portfolio u;
               notifications := notifications u; alerts := alerts u |},
          mode_name mode')
  end.

(** The invariant of [user_data]: one entry per user, and no item twice in
    a portfolio. *)
Definition well_formed (d : users) : Prop :=
  NoDup (map fst d)
  /\ Forall (fun entry : Z * User => NoDup (portfolio (snd entry))) d.

(** What the [/start] command and the mode and add buttons do to
    [user_data]; [button_callback] catches whatever a handler raises, the
    dictionary being then as it was. *)
Inductive Press : Type :=
| PressStart (user_id : Z)
| PressMode (user_id : Z) (data : pystr)
| PressAdd (user_id : Z) (item_idx : Z).

Definition press (user_data : users) (e : Press) : users :=
  match e with
  | PressStart user_id => register user_data user_id
  | PressMode user_id data =>
    match handle_mode_change user_data user_id data with
    | Some (d, _) => d
    | None => user_data
    end
  | PressAdd user_id item_idx =>
    match add_to_portfolio user_data user_id item_idx with
    | Some (d, _) => d
    | None => user_data
    end
  end.

Definition press_all (user_data : users) (es : list Press) : users :=
  fold_left press es user_data.

(** The guard and the subscript that open [show_item_details] and
    [show_analysis]: [None] when the guard answers that there is no such
    item, otherwise the outcome of [POPULAR_ITEMS[item_idx]]. *)
Definition select_item (items : list pystr) (item_idx : Z)
    : option (result pystr) :=
  if Z.of_nat (length items) <=? item_idx then None
  else Some (Seq.index items item_idx).

(** The test of [monitor_prices] for a trading signal. *)
Definition signal_due (trend : pystr) (potential : Z) : bool :=
  Str.contains (Str.lit "Сильный рост") trend || (75 <? potential).

(** The analytics that [monitor_prices] runs on an item once its new price
    is stored, up to the test for a signal. *)
Definition monitor_signal (self : history) (item : pystr) : result bool :=
  do trend <- PriceAnalyzer.detect_trend self item;
  do potential <- PriceAnalyzer.calculate_profit_potential self item;
  Val (signal_due trend potential).

(** The users a signal is sent to. *)
Definition signal_recipients (user_data : users) : list Z :=
  map fst
    (List.filter
       (fun entry : Z * User =>
          notifications (snd entry)
          && negb (Str.eqb (mode (snd entry)) (Str.lit "news")))
       user_data).

(** A window that is not monotonic and ends more than 10% above its
    start. *)
Definition strong_growth_window (w : list float) : bool :=
  negb (Classifier.strictly_increasing w)
  && negb (Classifier.strictly_decreasing w)
  && (Classifier.first_price w * 1.1 <? Classifier.last_price w)%float.

(** The badge of [show_top_items] and [top_command]. *)
Definition potential_badge (potential : Z) : pystr :=
  if 70 <? potential then Str.lit "🟢"
  else if 50 <? potential then Str.lit "🟡"
  else Str.lit "🟠".

(** The closing advice of [show_item_details]. *)
Definition potential_advice (potential : Z) : pystr :=
  if 70 <? potential
  then Str.lit "💡 <b>Рекомендация:</b> 🟢 Отличная инвестиция!"
  else if 50 <? potential
       then Str.lit "💡 <b>Рекомендация:</b> 🟡 Средний потенциал"
       else Str.lit "💡 <b>Рекомендация:</b> 🔴 Рискованно".

(** A steep and strictly rising window. *)
Definition steep_rise : list float := [10; 14; 18; 22]%float.

(** One entry of the news list. *)
Record NewsItem : Type := {
  source : pystr;
  title : pystr;
  date : pystr;
  impact : pystr;
  url : pystr;
  fetched : option datetime
}.

Definition set_fetched (t : datetime) (it : NewsItem) : NewsItem :=
  {| source := source it; title := title it; date := date it;
     impact := impact it; url := url it; fetched := Some t |}.

(** [for item in news_items: item['fetched'] = datetime.now()], the clock
    being read once per item: [clock i] is the reading for item [i]. *)
Definition stamp (clock : nat -> datetime) (news_items : list NewsItem)
    : list NewsItem :=
  imap (fun i it => set_fetched (clock i) it) news_items.

(** The message sent for a news item. *)
Record NewsAlert : Type := {
  alert_to : Z;
  alert_title : pystr;
  alert_date : pystr;
  alert_impact : pystr
}.

(** The items of a fresh list that [check_news] takes as new. *)
Definition new_news (news_cache news_items : list NewsItem) : list NewsItem :=
  match news_cache with
  | [] => firstn 1 news_items
  | _ :: _ =>
    List.filter
      (fun it => negb (bool_decide (title it ∈ map title news_cache)))
      news_items
  end.

(** [impact in ['🔥 Высокое', '⚠️ Среднее']]. *)
Definition important (it : NewsItem) : bool :=
  bool_decide (impact it ∈ [NewsParser.HIGH; NewsParser.MEDIUM]).

Definition alerts_for (user_data : users) (it : NewsItem) : list NewsAlert :=
  map (fun entry : Z * User =>
         {| alert_to := fst entry; alert_title := title it;
            alert_date := date it; alert_impact := impact it |})
    (List.filter (fun entry : Z * User => notifications (snd entry)) user_data).

(** [check_news], given the list that [get_steam_news] returned: the new
    [news_cache] and the messages sent, in order. *)
Definition check_news (news_cache : list NewsItem) (user_data : users)
    (news_items : list NewsItem) (clock : nat -> datetime)
    : list NewsItem * list NewsAlert :=
  match news_items with
  | [] => (news_cache, [])
  | _ :: _ =>
    let fresh := new_news news_cache news_items in
    (stamp clock news_items,
     flat_map (fun it => if important it then alerts_for user_data it else [])
       fresh)
  end.

(** The refresh test of [show_news] and [news_command]; ages are compared
    in microseconds. *)
Definition news_needs_update (news_cache : list NewsItem) (now : datetime)
    : bool :=
  match news_cache with
  | [] => true
  | first_item :: _ =>
    match fetched first_item with
    | Some t => 3600 * 1000000 <? now - t
    | None => false
    end
  end.

(** [show_news]: the new [news_cache] and the items listed; [news_items] is
    what [get_steam_news] returns if it is called. *)
Definition show_news (news_cache : list NewsItem) (now : datetime)
    (news_items : list NewsItem) (clock : nat -> datetime)
    : list NewsItem * list NewsItem :=
  if news_needs_update news_cache now
  then (stamp clock news_items, firstn 5 (stamp clock news_items))
  else (news_cache, firstn 5 news_cache).

(** A user with notifications off, two news items and a clock. *)
Definition quiet_user : User :=
  {| mode := Str.lit "trader"; portfolio := [2];
     notifications := false; alerts := [] |}.

Definition case_item : NewsItem :=
  {| source := Str.lit "🎮 Steam"; title := Str.lit "New Case released";
     date := Str.lit "01.02.2025"; impact := NewsParser.HIGH;
     url := []; fetched := None |}.

Definition blog_item : NewsItem :=
  {| source := Str.lit "🎮 Steam"; title := Str.lit "Community spotlight";
     date := Str.lit "02.02.2025"; impact := NewsParser.LOW;
     url := []; fetched := None |}.

Definition tick (i : nat) : datetime := 1000 + Z.of_nat i.

End Bot.

(** ** Calls over time *)

Module Timeline.

(** A series whose points are in order of time. *)
Definition time_ordered (points : list PricePoint) : Prop :=
  StronglySorted (fun p q => timestamp p <= timestamp q) points.

(** The stamping readings of successive calls never go backwards. *)
Definition clock_monotone (ops : list Store.Insert) : Prop :=
  StronglySorted (fun a b => Store.ins_now1 a <= Store.ins_now1 b) ops.

(** How many of the calls were made on [item]. *)
Definition inserts_on (item : pystr) (ops : list Store.Insert) : nat :=
  length (List.filter (fun o => bool_decide (Store.ins_item o = item)) ops).

(** Three calls on two items, at increasing times. *)
Definition mixed_calls : list Store.Insert :=
  [ {| Store.ins_item := Str.lit "AK-47"; Store.ins_price := 10%float;
       Store.ins_now1 := 5; Store.ins_now2 := 6 |};
    {| Store.ins_item := Str.lit "AWP"; Store.ins_price := 50%float;
       Store.ins_now1 := 7; Store.ins_now2 := 7 |};
    {| Store.ins_item := Str.lit "AK-47"; Store.ins_price := 12%float;
       Store.ins_now1 := 9; Store.ins_now2 := 9 |} ].

End Timeline.

(** * Properties *)

(** ** InvestmentAdvisor *)

Section AdvisorFacts.

Import InvestmentAdvisor Rubric.

Variable str_lower : pystr -> pystr.
Variable int_of_str : pystr -> option Z.

(** What [analyze_item] returns, for any trend string. *)
Lemma analyze_item_outcome price_data trend potential mode :
  exists a,
    analyze_item str_lower int_of_str price_data trend potential mode = Val a
    /\ rating a =
         rubric_rating
           (Str.contains (Str.lit "рост") (str_lower trend))
           (liquid int_of_str price_data)
           (70 <? potential)
           (Str.contains (Str.lit "падение") (str_lower trend))
    /\ recommendation a =
         recommendation_text (recommend (mode_of mode) (rating a))
    /\ strategy a =
         strategy_text (mode_of mode) (recommend (mode_of mode) (rating a)).
Proof.
  unfold analyze_item, parse_int, liquid, rubric_rating, mode_of, bonus,
    recommend.
  destruct (Str.contains (Str.lit "рост") (str_lower trend));
    destruct (int_of_str _) as [v|]; cbn [try_except Py.bind fst snd];
    try destruct (100 <? v); cbn [try_except Py.bind fst snd];
    destruct (70 <? potential);
    destruct (Str.contains (Str.lit "падение") (str_lower trend));
    cbn [fst snd];
    match goal with
    | |- context [set_rating ?r ?base] =>
        generalize base; intros an0;
        assert (Hr : rating (set_rating r an0) = r) by reflexivity;
        revert Hr; generalize (set_rating r an0); intros an Hr
    end;
    (destruct (Str.eqb mode (Str.lit "investor"));
     [ destruct (70 <? rating an) eqn:E1;
       [| destruct (50 <? rating an) eqn:E2]
     | destruct (60 <? rating an) eqn:E1;
       [| destruct (45 <? rating an) eqn:E2] ]);
    (eexists; split; [reflexivity|]);
    cbn [set_advice rating recommendation strategy];
    rewrite ?E1, ?E2; cbv beta iota delta [recommendation_text strategy_text];
    repeat split; exact Hr.
Qed.

End AdvisorFacts.

Section AdvisorClaims.

Import InvestmentAdvisor Rubric.

(** On the six labels of [detect_trend], the substring tests of the advisor
    (after lower-casing) pick out the growth and the decline labels. *)
Lemma label_growth_test (l : TrendLabel) :
  Str.contains (Str.lit "рост") (Str.lower_basic (trend_text l))
  = growth_bearing l.
Proof. destruct l; vm_compute; reflexivity. Qed.

Lemma label_decline_test (l : TrendLabel) :
  Str.contains (Str.lit "падение") (Str.lower_basic (trend_text l))
  = decline_bearing l.
Proof. destruct l; vm_compute; reflexivity. Qed.

Lemma trend_text_inj (l1 l2 : TrendLabel) :
  trend_text l1 = trend_text l2 -> l1 = l2.
Proof. destruct l1, l2; vm_compute; congruence. Qed.

Lemma recommendation_text_inj (r1 r2 : Recommendation) :
  recommendation_text r1 = recommendation_text r2 -> r1 = r2.
Proof. destruct r1, r2; vm_compute; congruence. Qed.

Lemma rubric_rating_bounds (g l h d : bool) : 0 <= rubric_rating g l h d <= 100.
Proof. unfold rubric_rating. lia. Qed.

Lemma mode_of_investor : mode_of (Str.lit "investor") = Investor.
Proof. vm_compute. reflexivity. Qed.

Lemma mode_of_trader : mode_of (Str.lit "trader") = Trader.
Proof. vm_compute. reflexivity. Qed.

Lemma mode_of_other (mode : pystr) :
  mode <> Str.lit "investor" -> mode_of mode = Trader.
Proof.
  intros Hne. unfold mode_of, Str.eqb.
  rewrite bool_decide_eq_false_2; [reflexivity | exact Hne].
Qed.

(** C6. For every quote, trend label, potential and mode (and whatever the
    integer parser accepts), [analyze_item] returns an analysis whose rating
    is 50, plus 15 for a growth label, plus 10 when the comma-stripped volume
    parses to more than 100 (nothing when it does not parse), plus 10 when
    the potential exceeds 70, minus 15 for a decline label, clamped to
    [0,100]; so the rating always lies within [0,100]. *)
Theorem analyze_item_rating_rubric
    (int_of_str : pystr -> option Z) (price_data : gmap pystr pystr)
    (l : TrendLabel) (potential : Z) (mode : pystr) :
  exists a,
    analyze_item Str.lower_basic int_of_str price_data (trend_text l)
      potential mode = Val a
    /\ rating a =
         Z.max 0
           (Z.min 100
              (50 + bonus (growth_bearing l) 15
                 + bonus (liquid int_of_str price_data) 10
                 + bonus (70 <? potential) 10
                 - bonus (decline_bearing l) 15))
    /\ 0 <= rating a <= 100.
Proof.
  destruct (analyze_item_outcome Str.lower_basic int_of_str price_data
              (trend_text l) potential mode) as (a & Hrun & Hrating & _).
  exists a. rewrite label_growth_test, label_decline_test in Hrating.
  split; [exact Hrun|]. split; [exact Hrating|].
  rewrite Hrating. apply rubric_rating_bounds.
Qed.

(** C7. The recommendation depends on the mode: under ['investor'] a rating
    above 70 gives Buy, above 50 Watch, otherwise Avoid; under ['trader'] a
    rating above 60 gives Buy, above 45 ConditionalBuy, otherwise Skip. A
    growth label alone gives rating 65, for which the investor is told to
    watch and the trader to buy. *)
Theorem recommendation_by_mode
    (str_lower : pystr -> pystr) (int_of_str : pystr -> option Z)
    (price_data : gmap pystr pystr) (trend : pystr) (potential : Z) :
  (exists a,
     analyze_item str_lower int_of_str price_data trend potential
       (Str.lit "investor") = Val a
     /\ recommendation a =
          recommendation_text
            (if 70 <? rating a then Buy
             else if 50 <? rating a then Watch else Avoid)
     /\ strategy a = strategy_text Investor (recommend Investor (rating a)))
  /\ (exists a,
        analyze_item str_lower int_of_str price_data trend potential
          (Str.lit "trader") = Val a
        /\ recommendation a =
             recommendation_text
               (if 60 <? rating a then Buy
                else if 45 <? rating a then ConditionalBuy else Skip)
        /\ strategy a = strategy_text Trader (recommend Trader (rating a)))
  /\ (exists ai at_,
        analyze_item Str.lower_basic Str.int_decimal ∅
          (trend_text StableGrowth) 50 (Str.lit "investor") = Val ai
        /\ analyze_item Str.lower_basic Str.int_decimal ∅
             (trend_text StableGrowth) 50 (Str.lit "trader") = Val at_
        /\ rating ai = 65 /\ rating at_ = 65
        /\ recommendation ai = recommendation_text Watch
        /\ recommendation at_ = recommendation_text Buy).
Proof.
  split; [|split].
  - destruct (analyze_item_outcome str_lower int_of_str price_data trend
                potential (Str.lit "investor")) as (a & Hrun & _ & Hrec & Hst).
    rewrite mode_of_investor in Hrec, Hst. exists a.
    split; [exact Hrun | split; [exact Hrec | exact Hst]].
  - destruct (analyze_item_outcome str_lower int_of_str price_data trend
                potential (Str.lit "trader")) as (a & Hrun & _ & Hrec & Hst).
    rewrite mode_of_trader in Hrec, Hst. exists a.
    split; [exact Hrun | split; [exact Hrec | exact Hst]].
  - do 2 eexists. repeat split; vm_compute; reflexivity.
Qed.

(** C10. Any mode string other than ['investor'] (so ['news'] or an unknown
    value as much as ['trader']) is served with the trader thresholds: the
    call returns, above 60 with Buy, above 45 with ConditionalBuy, otherwise
    with Skip. No mode is rejected. *)
Theorem other_modes_use_trader_thresholds
    (str_lower : pystr -> pystr) (int_of_str : pystr -> option Z)
    (price_data : gmap pystr pystr) (trend : pystr) (potential : Z)
    (mode : pystr) :
  mode <> Str.lit "investor" ->
  exists a,
    analyze_item str_lower int_of_str price_data trend potential mode = Val a
    /\ recommendation a =
         recommendation_text
           (if 60 <? rating a then Buy
            else if 45 <? rating a then ConditionalBuy else Skip)
    /\ strategy a = strategy_text Trader (recommend Trader (rating a)).
Proof.
  intros Hne.
  destruct (analyze_item_outcome str_lower int_of_str price_data trend
              potential mode) as (a & Hrun & _ & Hrec & Hst).
  rewrite (mode_of_other mode Hne) in Hrec, Hst. exists a.
  split; [exact Hrun | split; [exact Hrec | exact Hst]].
Qed.

Lemma other_modes_use_trader_thresholds_witness :
  Str.lit "news" <> Str.lit "investor"
  /\ exists a,
       analyze_item Str.lower_basic Str.int_decimal ∅ (trend_text Stable) 50
         (Str.lit "news") = Val a
       /\ recommendation a =
            recommendation_text
              (if 60 <? rating a then Buy
               else if 45 <? rating a then ConditionalBuy else Skip)
       /\ strategy a = strategy_text Trader (recommend Trader (rating a)).
Proof.
  assert (Hne : Str.lit "news" <> Str.lit "investor")
    by (vm_compute; discriminate).
  split; [exact Hne|].
  exact (other_modes_use_trader_thresholds Str.lower_basic Str.int_decimal ∅
           (trend_text Stable) 50 (Str.lit "news") Hne).
Defined.

End AdvisorClaims.

(** ** The price history store *)

Section StoreFacts.

Import PriceAnalyzer Store.

Implicit Types (self : history) (item : pystr) (ops : list Insert).

(** The series of the item written to, after the call. *)
Lemma add_price_point_lookup self item p now1 now2 :
  add_price_point self item p now1 now2 !! item
  = Some (List.filter
            (fun q => now2 - timedelta_days 30 <? timestamp q)
            (series self item ++ [{| price := p; timestamp := now1 |}])).
Proof.
  unfold add_price_point, series. rewrite lookup_insert_eq.
  rewrite lookup_insert_eq. cbn [default].
  destruct (self !! item) as [hist|] eqn:Hitem.
  - rewrite Hitem. reflexivity.
  - rewrite lookup_insert_eq. reflexivity.
Qed.

(** The call touches no other item. *)
Lemma add_price_point_other self item item' p now1 now2 :
  item <> item' ->
  add_price_point self item p now1 now2 !! item' = self !! item'.
Proof.
  intros Hne. unfold add_price_point.
  rewrite !lookup_insert_ne by exact Hne.
  destruct (self !! item); [reflexivity|].
  rewrite lookup_insert_ne by exact Hne. reflexivity.
Qed.

Lemma filter_retained now (l : list PricePoint) :
  Forall (retained now)
    (List.filter (fun q => now - timedelta_days 30 <? timestamp q) l).
Proof.
  apply List.Forall_forall. intros q Hq.
  apply List.filter_In in Hq. destruct Hq as [_ Hq].
  unfold retained. lia.
Qed.

Lemma record_all_snoc self ops o :
  record_all self (ops ++ [o]) = apply (record_all self ops) o.
Proof. unfold record_all. rewrite fold_left_app. reflexivity. Qed.

Lemma last_insert_snoc item ops o :
  last_insert item (ops ++ [o])
  = if decide (ins_item o = item) then Some o else last_insert item ops.
Proof. unfold last_insert. rewrite fold_left_app. reflexivity. Qed.

(** A negative price is stored like any other. *)
Example add_price_point_negative :
  add_price_point init (Str.lit "AK-47") (-1)%float 1000 1001
    !! Str.lit "AK-47"
  = Some [{| price := (-1)%float; timestamp := 1000 |}].
Proof. vm_compute. reflexivity. Qed.

(** So is an infinite one, and so is NaN. *)
Example add_price_point_infinite :
  add_price_point init (Str.lit "AK-47") infinity 1000 1001
    !! Str.lit "AK-47"
  = Some [{| price := infinity; timestamp := 1000 |}].
Proof. vm_compute. reflexivity. Qed.

Example add_price_point_nan :
  add_price_point init (Str.lit "AK-47") nan 1000 1001 !! Str.lit "AK-47"
  = Some [{| price := nan; timestamp := 1000 |}].
Proof. vm_compute. reflexivity. Qed.

(** C2, as stated, fails: a call with the negative price [-1.0] on an empty
    history does store the point, so the series of the item is not left
    unchanged. *)
Lemma add_price_point_stores_invalid_price :
  invalid_price (-1)%float = true
  /\ series init (Str.lit "AK-47") = []
  /\ series (add_price_point init (Str.lit "AK-47") (-1)%float 1000 1001)
       (Str.lit "AK-47")
     = [{| price := (-1)%float; timestamp := 1000 |}]
  /\ series (add_price_point init (Str.lit "AK-47") (-1)%float 1000 1001)
       (Str.lit "AK-47")
     <> series init (Str.lit "AK-47").
Proof.
  split; [vm_compute; reflexivity|]. split; [vm_compute; reflexivity|].
  split; [vm_compute; reflexivity|]. vm_compute. discriminate.
Qed.

(** C2, amended. [add_price_point] validates nothing: for every price,
    negative and non-finite ones included, the series of the item after the
    call is the earlier points still inside the window followed by the new
    point (the clock having moved less than 30 days between the two
    readings); the call is a total function and raises nothing. *)
Theorem add_price_point_appends self item p now1 now2 :
  now2 - timedelta_days 30 < now1 ->
  add_price_point self item p now1 now2 !! item
  = Some (List.filter
            (fun q => now2 - timedelta_days 30 <? timestamp q)
            (series self item)
          ++ [{| price := p; timestamp := now1 |}]).
Proof.
  intros Hclock. rewrite add_price_point_lookup, List.filter_app.
  cbn [List.filter timestamp].
  destruct (now2 - timedelta_days 30 <? now1) eqn:Hkeep; [reflexivity|].
  apply Z.ltb_ge in Hkeep. lia.
Qed.

Lemma add_price_point_appends_witness :
  1001 - timedelta_days 30 < 1000
  /\ invalid_price infinity = true
  /\ add_price_point init (Str.lit "AK-47") infinity 1000 1001
       !! Str.lit "AK-47"
     = Some (List.filter
               (fun q => 1001 - timedelta_days 30 <? timestamp q)
               (series init (Str.lit "AK-47"))
             ++ [{| price := infinity; timestamp := 1000 |}]).
Proof.
  assert (Hclock : 1001 - timedelta_days 30 < 1000) by (vm_compute; reflexivity).
  split; [exact Hclock|]. split; [vm_compute; reflexivity|].
  exact (add_price_point_appends init (Str.lit "AK-47") infinity 1000 1001
           Hclock).
Defined.

(** C8. After any sequence of [add_price_point] calls, from any history,
    the series of an item that received a call holds only points stamped
    less than 30 days before the cutoff reading of the latest call on that
    item, hence (the clock not running backwards between the two readings
    of that call) less than 30 days before its insertion time. A single
    call is the sequence of length one. *)
Theorem retention_invariant self ops item o :
  last_insert item ops = Some o ->
  exists points,
    record_all self ops !! item = Some points
    /\ Forall (retained (ins_now2 o)) points
    /\ (ins_now1 o <= ins_now2 o -> Forall (retained (ins_now1 o)) points).
Proof.
  revert o. induction ops as [|o' ops IH] using rev_ind; intros o Hlast.
  - discriminate Hlast.
  - rewrite last_insert_snoc in Hlast. rewrite record_all_snoc. unfold apply.
    destruct (decide (ins_item o' = item)) as [Heq|Hne].
    + injection Hlast as <-. subst item.
      rewrite add_price_point_lookup. eexists. split; [reflexivity|].
      split; [apply filter_retained|].
      intros Hclock. eapply List.Forall_impl; [|apply filter_retained].
      unfold retained. intros q Hq. lia.
    + rewrite add_price_point_other by exact Hne. apply IH. exact Hlast.
Qed.

Lemma retention_invariant_witness :
  last_insert (Str.lit "AK-47") [early_call; late_call] = Some late_call
  /\ ins_now1 late_call <= ins_now2 late_call
  /\ exists points,
       record_all init [early_call; late_call] !! Str.lit "AK-47"
       = Some points
       /\ Forall (retained (ins_now2 late_call)) points
       /\ Forall (retained (ins_now1 late_call)) points.
Proof.
  assert (Hlast : last_insert (Str.lit "AK-47") [early_call; late_call]
                  = Some late_call) by (vm_compute; reflexivity).
  assert (Hclock : ins_now1 late_call <= ins_now2 late_call)
    by (vm_compute; discriminate).
  split; [exact Hlast|]. split; [exact Hclock|].
  destruct (retention_invariant init [early_call; late_call]
              (Str.lit "AK-47") late_call Hlast) as (points & Hrun & H2 & H1).
  exists points. split; [exact Hrun|]. split; [exact H2|exact (H1 Hclock)].
Defined.

(** The early point of that run is indeed gone. *)
Example early_point_purged :
  series (record_all init [early_call; late_call]) (Str.lit "AK-47")
  = [{| price := 11%float; timestamp := timedelta_days 31 |}].
Proof. vm_compute. reflexivity. Qed.

End StoreFacts.

(** ** Indexing and slicing *)

Section SeqFacts.

Context {A : Type}.

Implicit Types (xs : list A) (i k : nat).

Lemma index_nat xs i x :
  nth_error xs i = Some x -> Seq.index xs (Z.of_nat i) = Val x.
Proof.
  intros Hnth. unfold Seq.index.
  destruct (Z.of_nat i <? 0) eqn:Hneg; [apply Z.ltb_lt in Hneg; lia|].
  rewrite Hneg, Nat2Z.id, Hnth. reflexivity.
Qed.

Lemma index_app_here (pre : list A) x rest :
  Seq.index (pre ++ x :: rest) (Z.of_nat (length pre)) = Val x.
Proof.
  apply index_nat. rewrite nth_error_app2 by lia.
  rewrite Nat.sub_diag. reflexivity.
Qed.

Lemma index_app_next (pre : list A) x y rest :
  Seq.index (pre ++ x :: y :: rest) (Z.of_nat (length pre) + 1) = Val y.
Proof.
  replace (Z.of_nat (length pre) + 1) with (Z.of_nat (S (length pre))) by lia.
  apply index_nat. rewrite nth_error_app2 by lia.
  replace (S (length pre) - length pre)%nat with 1%nat by lia. reflexivity.
Qed.

Lemma index_first x xs d : Seq.index (x :: xs) 0 = Val (hd d (x :: xs)).
Proof. reflexivity. Qed.

Lemma index_last x xs d :
  Seq.index (x :: xs) (-1) = Val (List.last (x :: xs) d).
Proof.
  unfold Seq.index.
  replace (-1 <? 0) with true by reflexivity.
  replace (Z.of_nat (length (x :: xs)) + -1) with (Z.of_nat (length xs))
    by (cbn [length]; lia).
  destruct (Z.of_nat (length xs) <? 0) eqn:Hneg; [apply Z.ltb_lt in Hneg; lia|].
  rewrite Nat2Z.id.
  destruct (exists_last (l := x :: xs)) as (front & z & Hsplit);
    [discriminate|].
  rewrite Hsplit, last_last.
  assert (Hlen : length xs = length front).
  { apply (f_equal (@length A)) in Hsplit.
    rewrite length_app in Hsplit. cbn [length] in Hsplit. lia. }
  rewrite Hlen, nth_error_app2 by lia.
  rewrite Nat.sub_diag. reflexivity.
Qed.

Lemma last_n_length k xs : length (Seq.last_n k xs) = Nat.min k (length xs).
Proof. unfold Seq.last_n. rewrite length_skipn. lia. Qed.

Lemma range_nat k : Seq.range (Z.of_nat k) = map Z.of_nat (seq 0 k).
Proof. unfold Seq.range. rewrite Nat2Z.id. reflexivity. Qed.

End SeqFacts.

(** ** TrendClassifier *)

Section TrendFacts.

Import PriceAnalyzer Classifier Store.

#[local] Open Scope float_scope.

(** The index-driven [all(...)] over [pre ++ l], started at the offset of
    [l], scans the consecutive pairs of [l]. *)
Lemma all_rising_from (pre l : list float) :
  Seq.all_of (rising_at (pre ++ l))
    (map Z.of_nat (seq (length pre) (length l - 1)))
  = Val (strictly_increasing l).
Proof.
  revert pre. induction l as [|a [|b t] IH]; intros pre; try reflexivity.
  replace (length (a :: b :: t) - 1)%nat with (S (length (b :: t) - 1))
    by (cbn [length]; lia).
  cbn [seq map Seq.all_of]. unfold rising_at at 1.
  rewrite index_app_here, index_app_next. cbn [Py.bind].
  unfold strictly_increasing. cbn [consecutive].
  destruct (a <? b); [|reflexivity]. cbn [andb].
  specialize (IH (pre ++ [a])).
  rewrite <- app_assoc, length_app in IH. cbn [app length] in IH.
  replace (length pre + 1)%nat with (S (length pre)) in IH by lia.
  exact IH.
Qed.

Lemma all_falling_from (pre l : list float) :
  Seq.all_of (falling_at (pre ++ l))
    (map Z.of_nat (seq (length pre) (length l - 1)))
  = Val (strictly_decreasing l).
Proof.
  revert pre. induction l as [|a [|b t] IH]; intros pre; try reflexivity.
  replace (length (a :: b :: t) - 1)%nat with (S (length (b :: t) - 1))
    by (cbn [length]; lia).
  cbn [seq map Seq.all_of]. unfold falling_at at 1.
  rewrite index_app_here, index_app_next. cbn [Py.bind].
  unfold strictly_decreasing. cbn [consecutive].
  destruct (b <? a); [|reflexivity]. cbn [andb].
  specialize (IH (pre ++ [a])).
  rewrite <- app_assoc, length_app in IH. cbn [app length] in IH.
  replace (length pre + 1)%nat with (S (length pre)) in IH by lia.
  exact IH.
Qed.

Lemma range_below_length (l : list float) :
  Seq.range (Z.of_nat (length l) - 1)%Z
  = map Z.of_nat (seq 0 (length l - 1)).
Proof.
  destruct l as [|a t]; [reflexivity|].
  replace (Z.of_nat (length (a :: t)) - 1)%Z with (Z.of_nat (length t))
    by (cbn [length]; lia).
  rewrite range_nat. f_equal. f_equal. cbn [length]. lia.
Qed.

End TrendFacts.

Section TrendClaims.

Import PriceAnalyzer Classifier Store.

#[local] Open Scope float_scope.

(** Past its guards, [detect_trend] computes [classify] on the window and
    never reaches its exception handler. *)
Lemma detect_trend_window (self : history) (item : pystr)
    (hist : list PricePoint) :
  self !! item = Some hist ->
  (3 <= length hist)%nat ->
  detect_trend self item
  = Val (trend_text (classify (map price (Seq.last_n 7 hist)))).
Proof.
  intros Hitem Hlen. unfold detect_trend. rewrite Hitem.
  destruct (length hist <? 3)%nat eqn:Hshort;
    [apply Nat.ltb_lt in Hshort; lia|].
  set (w := map price (Seq.last_n 7 hist)).
  assert (Hw : (2 <= length w)%nat).
  { unfold w. rewrite length_map, last_n_length. lia. }
  destruct (length w <? 2)%nat eqn:Hw'; [apply Nat.ltb_lt in Hw'; lia|].
  rewrite range_below_length.
  pose proof (all_rising_from [] w) as Hup.
  pose proof (all_falling_from [] w) as Hdown.
  cbn [app length] in Hup, Hdown. rewrite Hup, Hdown.
  unfold classify. cbn [Py.bind].
  destruct (strictly_increasing w); [reflexivity|].
  destruct (strictly_decreasing w); [reflexivity|].
  destruct w as [|x xs]; [cbn [length] in Hw; lia|].
  rewrite (index_last x xs 0), (index_first x xs 0). cbn [Py.bind].
  unfold first_price, last_price.
  destruct (hd 0 (x :: xs) * 1.1 <? List.last (x :: xs) 0); [reflexivity|].
  destruct (List.last (x :: xs) 0 <? hd 0 (x :: xs) * 0.9); reflexivity.
Qed.

(** C3. With at least 3 points stored (hence at least 2 in the last-7
    slice), [detect_trend] applies the rules in this order over the slice:
    every consecutive pair strictly increasing gives StableGrowth; else
    every pair strictly decreasing gives Decline; else last > first * 1.1
    gives StrongGrowth; else last < first * 0.9 gives StrongDecline; else
    Stable. The two monotonic rules are tested before the thresholds. With
    fewer than 3 points it answers InsufficientData whatever the values. *)
Theorem detect_trend_priority (self : history) (item : pystr) :
  let points := series self item in
  let w := map price (Seq.last_n 7 points) in
  ((3 <= length points)%nat ->
   (2 <= length w)%nat
   /\ detect_trend self item
      = Val (trend_text
               (if strictly_increasing w then StableGrowth
                else if strictly_decreasing w then Decline
                else if first_price w * 1.1 <? last_price w then StrongGrowth
                else if last_price w <? first_price w * 0.9
                     then StrongDecline
                     else Stable)))
  /\ ((length points < 3)%nat ->
      detect_trend self item = Val (trend_text InsufficientData)).
Proof.
  unfold series.
  destruct (self !! item) as [hist|] eqn:Hitem; cbn [default from_option id].
  - split.
    + intros Hlen. split.
      * rewrite length_map, last_n_length. lia.
      * exact (detect_trend_window self item hist Hitem Hlen).
    + intros Hshort. unfold detect_trend. rewrite Hitem.
      apply Nat.ltb_lt in Hshort. rewrite Hshort. reflexivity.
  - split.
    + cbn [length]. lia.
    + intros _. unfold detect_trend. rewrite Hitem. reflexivity.
Qed.

End TrendClaims.

Section TrendExamples.

Import PriceAnalyzer Classifier Store.

#[local] Open Scope float_scope.

(** A rise that is monotonic and also beyond +10% is reported as
    StableGrowth: the monotonic rule wins. *)
Example monotonic_rise_wins :
  detect_trend (observe (Str.lit "AK-47") [10; 11; 12; 13; 14])
    (Str.lit "AK-47")
  = Val (trend_text StableGrowth)
  /\ (10 * 1.1 <? 14) = true.
Proof. split; vm_compute; reflexivity. Qed.

Example monotonic_fall_wins :
  detect_trend (observe (Str.lit "AK-47") [14; 13; 12; 11; 10])
    (Str.lit "AK-47")
  = Val (trend_text Decline)
  /\ (10 <? 14 * 0.9) = true.
Proof. split; vm_compute; reflexivity. Qed.

Lemma detect_trend_priority_witness :
  (3 <= length (series (observe (Str.lit "AK-47") mixed_rise)
                  (Str.lit "AK-47")))%nat
  /\ detect_trend (observe (Str.lit "AK-47") mixed_rise) (Str.lit "AK-47")
     = Val (trend_text StrongGrowth)
  /\ (length (series (observe (Str.lit "AK-47") two_points) (Str.lit "AK-47"))
      < 3)%nat
  /\ detect_trend (observe (Str.lit "AK-47") two_points) (Str.lit "AK-47")
     = Val (trend_text InsufficientData).
Proof.
  assert (Hlong : (3 <= length
                     (series (observe (Str.lit "AK-47") mixed_rise)
                        (Str.lit "AK-47")))%nat) by (vm_compute; lia).
  assert (Hshort : (length
                      (series (observe (Str.lit "AK-47") two_points)
                         (Str.lit "AK-47")) < 3)%nat) by (vm_compute; lia).
  split; [exact Hlong|]. split; [|split; [exact Hshort|]].
  - destruct (detect_trend_priority
                (observe (Str.lit "AK-47") mixed_rise) (Str.lit "AK-47"))
      as [Hrules _].
    destruct (Hrules Hlong) as [_ ->]. vm_compute. reflexivity.
  - destruct (detect_trend_priority
                (observe (Str.lit "AK-47") two_points) (Str.lit "AK-47"))
      as [_ Hfew].
    exact (Hfew Hshort).
Defined.

End TrendExamples.

(** ** ProfitPotentialScorer *)

Section ScorerFacts.

Import PriceAnalyzer Classifier Scorer Store.

#[local] Open Scope float_scope.

Lemma min_lowest (x : float) (xs : list float) :
  Num.min (x :: xs) = Val (lowest (x :: xs)).
Proof. reflexivity. Qed.

Lemma max_highest (x : float) (xs : list float) :
  Num.max (x :: xs) = Val (highest (x :: xs)).
Proof. reflexivity. Qed.

(** What the body of [calculate_profit_potential] does on a non-empty
    window, case by case. *)
Lemma profit_potential_window (self : history) (item : pystr)
    (hist : list PricePoint) :
  self !! item = Some hist ->
  (5 <= length hist)%nat ->
  let w := map price (Seq.last_n 14 hist) in
  calculate_profit_potential self item
  = if lowest w =? 0 then Val 50%Z
    else if first_price w =? 0 then Val 50%Z
    else match Num.int_of_float (raw_potential w) with
         | Val k => Val (Z.max 0 (Z.min 100 k))
         | Raise ValueError | Raise ZeroDivisionError => Val 50%Z
         | Raise e => Raise e
         end.
Proof.
  intros Hitem Hlen w. unfold calculate_profit_potential. rewrite Hitem.
  destruct (length hist <? 5)%nat eqn:Hshort;
    [apply Nat.ltb_lt in Hshort; lia|].
  fold w.
  assert (Hw : (5 <= length w)%nat).
  { unfold w. rewrite length_map, last_n_length. lia. }
  destruct w as [|x xs] eqn:Ew; [cbn [length] in Hw; lia|].
  rewrite min_lowest, max_highest. cbn [Py.bind].
  destruct (lowest (x :: xs) =? 0) eqn:Hlo; [reflexivity|].
  unfold Num.div at 1. rewrite Hlo. cbn [Py.bind].
  rewrite (index_last x xs 0), (index_first x xs 0). cbn [Py.bind].
  fold (first_price (x :: xs)). fold (last_price (x :: xs)).
  unfold Num.div. destruct (first_price (x :: xs) =? 0) eqn:Hfirst;
    [reflexivity|].
  cbn [Py.bind].
  change (50 + (last_price (x :: xs) - first_price (x :: xs))
                 / first_price (x :: xs) * 100 * 2
             + (highest (x :: xs) - lowest (x :: xs))
                 / lowest (x :: xs) * 100 * 0.5)
    with (raw_potential (x :: xs)).
  destruct (Num.int_of_float (raw_potential (x :: xs))) as [k|[]];
    reflexivity.
Qed.

End ScorerFacts.

Section ScorerClaims.

Import PriceAnalyzer Classifier Scorer Store.

#[local] Open Scope float_scope.



(** A window whose minimum is zero scores the default. *)
Example zero_minimum_scores_default :
  calculate_profit_potential (observe (Str.lit "AK-47") [0; 5; 6; 7; 8])
    (Str.lit "AK-47")
  = Val 50%Z.
Proof. vm_compute. reflexivity. Qed.

End ScorerClaims.

(** ** PricePredictor *)

Section ForecastFacts.

Import PriceAnalyzer Classifier Forecast Store.

#[local] Open Scope float_scope.









End ForecastFacts.

(** [int(x)] exists for every finite float. *)
Lemma int_of_float_returns (x : float) :
  is_nan x = false -> is_infinity x = false -> returns (Num.int_of_float x).
Proof.
  intros Hnan Hinf. unfold Num.int_of_float, Prim2SF. rewrite Hnan.
  destruct (is_zero x); [eexists; reflexivity|]. rewrite Hinf.
  destruct (Z.frexp x) as [r e]. destruct (shr_fexp _ _ _ _ _) as [shr e'].
  destruct (shr_m shr); eexists; reflexivity.
Qed.

Section ForecastClaims.

Import PriceAnalyzer Classifier Forecast Store.

#[local] Open Scope float_scope.



End ForecastClaims.

Section ForecastExamples.

Import PriceAnalyzer Classifier Forecast Scorer Store.

#[local] Open Scope float_scope.


(** On the linear series [10, 12, 14, ...], for every window length the
    predictor can see, the slope it fits falls short of 2, whereas the
    least-squares slope about the mean index [(n-1)/2] is exactly 2. *)
Lemma linear_slope_below_two (n : nat) :
  (10 <= n <= 30)%nat ->
  (slope (linear_series 10 n) <? 2) = true
  /\ (ols_slope (linear_series 10 n) =? 2) = true.
Proof.
  intros Hn. do 10 (destruct n as [|n]; [lia|]).
  do 21 (destruct n as [|n]; [split; vm_compute; reflexivity|]). lia.
Qed.

(** C1, evaluated. On the ten-point series [10, 12, ..., 28] the sums of
    [predict_price] are 165 and 85: [x_mean] is taken as [n/2 = 5], not as
    the mean index 4.5, so the fitted slope is 165/85 and not 2, and the
    reported change is 48.53% where slope 2 gives 50%. The change is
    [slope * 7 / last_price * 100] of the fitted slope. *)
Theorem linear_series_slope_is_not_two :
  rising_window = [10; 12; 14; 16; 18; 20; 22; 24; 26; 28]
  /\ x_mean 10 = 5
  /\ numerator rising_window = 165
  /\ denominator 10 = 85
  /\ slope rising_window = 165 / 85
  /\ (slope rising_window =? 2) = false
  /\ ols_slope rising_window = 2
  /\ fit_change_percent rising_window 7
     = Val (Some (slope rising_window * 7 / 28 * 100))
  /\ slope rising_window * 7 / 28 * 100 = 48.529411764705884
  /\ 2 * 7 / 28 * 100 = 50
  /\ predict_price (observe (Str.lit "AK-47") rising_window)
       (Str.lit "AK-47") 7
     = Val {| prediction := bullish; confidence := 85;
              message := MsgGrowth 48.529411764705884 7 |}.
Proof. repeat split; vm_compute; reflexivity. Qed.

(** C5, evaluated. An infinite score is not covered by the handlers: on
    finite prices whose ratio overflows, [int(...)] raises [OverflowError],
    which [calculate_profit_potential] (catching [ZeroDivisionError] and
    [ValueError]) and [predict_price] (catching those and [IndexError]) let
    through to the caller. *)
Theorem overflow_escapes_the_handlers :
  forallb is_finite spike_window = true
  /\ volatility spike_window = infinity
  /\ calculate_profit_potential (observe (Str.lit "AK-47") spike_window)
       (Str.lit "AK-47")
     = Raise OverflowError
  /\ forallb is_finite collapse_window = true
  /\ change_percent collapse_window 7 = neg_infinity
  /\ predict_price (observe (Str.lit "AK-47") collapse_window)
       (Str.lit "AK-47") 7
     = Raise OverflowError.
Proof. repeat split; vm_compute; reflexivity. Qed.

End ForecastExamples.

(** ** Which operations always return *)

Section Totality.

Import PriceAnalyzer Classifier Store InvestmentAdvisor.

(** [detect_trend] returns a label on every history. *)
Lemma detect_trend_returns (self : history) (item : pystr) :
  exists l : TrendLabel, detect_trend self item = Val (trend_text l).
Proof.
  destruct (self !! item) as [hist|] eqn:Hitem.
  - destruct (le_lt_dec 3 (length hist)) as [Hlen|Hlen].
    + eexists. exact (detect_trend_window self item hist Hitem Hlen).
    + exists InsufficientData. unfold detect_trend. rewrite Hitem.
      apply Nat.ltb_lt in Hlen. rewrite Hlen. reflexivity.
  - exists InsufficientData. unfold detect_trend. rewrite Hitem. reflexivity.
Qed.

(** [analyze_item] returns an analysis on every quote, whatever its volume
    field holds. *)
Lemma analyze_item_returns (str_lower : pystr -> pystr)
    (int_of_str : pystr -> option Z) (price_data : gmap pystr pystr)
    (trend : pystr) (potential : Z) (mode : pystr) :
  returns (analyze_item str_lower int_of_str price_data trend potential mode).
Proof.
  destruct (analyze_item_outcome str_lower int_of_str price_data trend
              potential mode) as (a & Hrun & _).
  exists a. exact Hrun.
Qed.

(** On an empty history the three read operations answer their defaults. *)
Example empty_history_defaults :
  detect_trend init (Str.lit "AK-47") = Val (trend_text InsufficientData)
  /\ calculate_profit_potential init (Str.lit "AK-47") = Val 50
  /\ predict_price init (Str.lit "AK-47") 7 = Val insufficient_data.
Proof. repeat split. Qed.

End Totality.

(** ** The regression formula, exactly *)


Section ExactFacts.

Import ExactFit.

#[local] Open Scope Q_scope.

Lemma of_nat_S (k : nat) : of_nat (S k) == of_nat k + 1.
Proof.
  unfold of_nat. rewrite Nat2Z.inj_succ. unfold Z.succ.
  rewrite inject_Z_plus. reflexivity.
Qed.

Lemma sum_snoc (xs : list Q) (x : Q) : sum (xs ++ [x]) = sum xs + x.
Proof. unfold sum. rewrite fold_left_app. reflexivity. Qed.

(** The sum of a quadratic [p + q i + r i^2] over [i < k]. *)
Lemma sum_quadratic (p q r : Q) (k : nat) :
  sum (map (fun i => p + q * of_nat i + r * of_nat i ^ 2) (seq 0 k))
  == p * of_nat k + q * (of_nat k * (of_nat k - 1) / 2)
     + r * (of_nat k * (of_nat k - 1) * (2 * of_nat k - 1) / 6).
Proof.
  induction k as [|k IH].
  - unfold sum, of_nat. cbn. field.
  - rewrite seq_S, map_app. cbn [map plus]. rewrite sum_snoc, IH.
    rewrite !of_nat_S. field.
Qed.

Lemma sum_ext (f g : nat -> Q) (l : list nat) :
  (forall i, f i == g i) -> sum (map f l) == sum (map g l).
Proof.
  intros Hfg. induction l as [|x l IH] using rev_ind; [reflexivity|].
  rewrite !map_app. cbn [map]. rewrite !sum_snoc, IH, Hfg. reflexivity.
Qed.

Lemma combine_indices (g : nat -> Q) (n : nat) (s : nat) :
  combine (seq s n) (map g (seq s n)) = map (fun i => (i, g i)) (seq s n).
Proof.
  revert s. induction n as [|n IH]; intros s; [reflexivity|].
  cbn [seq map combine]. rewrite IH. reflexivity.
Qed.

Lemma linear_length a n : length (linear_series a n) = n.
Proof. unfold linear_series. rewrite length_map, length_seq. reflexivity. Qed.

Lemma linear_sum a n :
  sum (linear_series a n) == a * of_nat n + of_nat n * (of_nat n - 1).
Proof.
  unfold linear_series.
  rewrite (sum_ext _ (fun i => a + 2 * of_nat i + 0 * of_nat i ^ 2))
    by (intros i; ring).
  rewrite sum_quadratic. field.
Qed.

Lemma of_nat_pos n : (1 <= n)%nat -> 0 < of_nat n.
Proof.
  intros Hn. unfold of_nat. change 0 with (inject_Z 0).
  rewrite <- Zlt_Qlt. lia.
Qed.

Lemma linear_y_mean a n :
  (1 <= n)%nat -> y_mean (linear_series a n) == a + (of_nat n - 1).
Proof.
  intros Hn. unfold y_mean. rewrite linear_length, linear_sum.
  pose proof (of_nat_pos n Hn) as Hpos.
  field. intros H0. rewrite H0 in Hpos. discriminate.
Qed.

Lemma linear_numerator a n :
  (1 <= n)%nat ->
  numerator (linear_series a n)
  == of_nat n * (of_nat n - 1) * (of_nat n + 1) / 6.
Proof.
  intros Hn. unfold numerator. rewrite linear_length.
  unfold linear_series at 2. rewrite combine_indices, map_map. cbn [fst snd].
  pose proof (linear_y_mean a n Hn) as Hy.
  rewrite (sum_ext _
    (fun i => (x_mean n * (of_nat n - 1))
              + (- (of_nat n - 1) - 2 * x_mean n) * of_nat i
              + 2 * of_nat i ^ 2)).
  - rewrite sum_quadratic. unfold x_mean. field.
  - intros i. rewrite Hy. ring.
Qed.

Lemma linear_denominator n :
  denominator n == of_nat n * (of_nat n ^ 2 + 2) / 12.
Proof.
  unfold denominator.
  rewrite (sum_ext _
    (fun i => x_mean n ^ 2 + (- 2 * x_mean n) * of_nat i + 1 * of_nat i ^ 2))
    by (intros i; ring).
  rewrite sum_quadratic. unfold x_mean. field.
Qed.

Lemma square_plus_two_pos (x : Q) : 0 < x -> 0 < x ^ 2 + 2.
Proof.
  intros Hx. assert (Hsq : x ^ 2 == x * x) by ring. rewrite Hsq.
  pose proof (Qmult_lt_0_compat x x Hx Hx) as Hxx.
  apply Qlt_trans with (x * x); [exact Hxx|].
  rewrite <- (Qplus_0_r (x * x)) at 1.
  apply Qplus_lt_r. reflexivity.
Qed.

Lemma denominator_pos n : (1 <= n)%nat -> 0 < denominator n.
Proof.
  intros Hn. rewrite linear_denominator.
  pose proof (of_nat_pos n Hn) as Hpos.
  apply Qlt_shift_div_l; [reflexivity|]. rewrite Qmult_0_l.
  apply Qmult_lt_0_compat; [exact Hpos|].
  apply square_plus_two_pos. exact Hpos.
Qed.

Theorem exact_linear_slope a n :
  (1 <= n)%nat ->
  slope (linear_series a n)
  == 2 * (of_nat n ^ 2 - 1) / (of_nat n ^ 2 + 2).
Proof.
  intros Hn. unfold slope. rewrite linear_length.
  pose proof (of_nat_pos n Hn) as Hpos.
  pose proof (denominator_pos n Hn) as Hden.
  pose proof (square_plus_two_pos (of_nat n) Hpos) as Hsq.
  destruct (Qeq_bool (denominator n) 0) eqn:Hb.
  - apply Qeq_bool_eq in Hb. rewrite Hb in Hden. discriminate.
  - rewrite linear_numerator by exact Hn. rewrite linear_denominator.
    field. split.
    + intros H0. rewrite H0 in Hsq. discriminate.
    + intros H0. rewrite H0 in Hpos. discriminate.
Qed.

(** Hence never 2. *)
Corollary exact_linear_slope_not_two a n :
  (1 <= n)%nat -> ~ slope (linear_series a n) == 2.
Proof.
  intros Hn Htwo. rewrite (exact_linear_slope a n Hn) in Htwo.
  pose proof (of_nat_pos n Hn) as Hpos.
  pose proof (square_plus_two_pos (of_nat n) Hpos) as Hsq.
  assert (Hne : ~ of_nat n ^ 2 + 2 == 0)
    by (intros H0; rewrite H0 in Hsq; discriminate).
  assert (Habs : 2 * (of_nat n ^ 2 - 1)
                 == 2 * (of_nat n ^ 2 - 1) / (of_nat n ^ 2 + 2)
                    * (of_nat n ^ 2 + 2)) by (field; exact Hne).
  rewrite Htwo in Habs.
  assert (Hfalse : -2 == 4).
  { assert (Hleft : -2 == 2 * (of_nat n ^ 2 - 1) - 2 * of_nat n ^ 2) by ring.
    rewrite Hleft, Habs. ring. }
  discriminate Hfalse.
Qed.
(** The least-squares slope of the same series is 2. *)
Lemma linear_ols_numerator a n :
  (1 <= n)%nat ->
  ols_numerator (linear_series a n)
  == of_nat n * (of_nat n - 1) * (of_nat n + 1) / 6.
Proof.
  intros Hn. unfold ols_numerator. rewrite linear_length.
  unfold linear_series at 2. rewrite combine_indices, map_map. cbn [fst snd].
  pose proof (linear_y_mean a n Hn) as Hy.
  rewrite (sum_ext _
    (fun i => (mean_index n * (of_nat n - 1))
              + (- (of_nat n - 1) - 2 * mean_index n) * of_nat i
              + 2 * of_nat i ^ 2)).
  - rewrite sum_quadratic. unfold mean_index. field.
  - intros i. rewrite Hy. ring.
Qed.

Lemma linear_ols_denominator n :
  ols_denominator n == of_nat n * (of_nat n - 1) * (of_nat n + 1) / 12.
Proof.
  unfold ols_denominator.
  rewrite (sum_ext _
    (fun i => mean_index n ^ 2 + (- 2 * mean_index n) * of_nat i
              + 1 * of_nat i ^ 2))
    by (intros i; ring).
  rewrite sum_quadratic. unfold mean_index. field.
Qed.

Theorem exact_ols_slope_two a n :
  (2 <= n)%nat -> ols_slope (linear_series a n) == 2.
Proof.
  intros Hn. unfold ols_slope. rewrite linear_length.
  rewrite linear_ols_numerator by lia. rewrite linear_ols_denominator.
  assert (Hpos : 0 < of_nat n) by (apply of_nat_pos; lia).
  assert (Hgt : 0 < of_nat n - 1).
  { destruct n as [|n]; [lia|]. rewrite of_nat_S.
    assert (Hn' : of_nat n + 1 - 1 == of_nat n) by ring.
    rewrite Hn'. apply of_nat_pos. lia. }
  assert (Hnext : 0 < of_nat n + 1).
  { apply Qlt_trans with (of_nat n); [exact Hpos|].
    rewrite <- (Qplus_0_r (of_nat n)) at 1. apply Qplus_lt_r. reflexivity. }
  field. repeat split; intros H0.
  - rewrite H0 in Hnext. discriminate.
  - rewrite H0 in Hgt. discriminate.
  - rewrite H0 in Hpos. discriminate.
Qed.

End ExactFacts.

(** * Further properties of the analytics *)

(** ** The store over sequences of calls *)

Section TimelineFacts.

Import PriceAnalyzer Store Timeline.

Implicit Types (self : history) (item : pystr) (ops : list Insert).

(** X1. Calls made on other items never change the series of an item:
    whatever the sequence of calls, if none of them names [item], the entry
    of [item] is what it was. *)
Theorem record_all_frame self ops item :
  Forall (fun o => ins_item o <> item) ops ->
  record_all self ops !! item = self !! item.
Proof.
  induction ops as [|o ops IH] using rev_ind; intros Hother; [reflexivity|].
  apply Forall_app in Hother. destruct Hother as [Hops Ho].
  apply Forall_inv in Ho.
  rewrite record_all_snoc. unfold apply.
  rewrite add_price_point_other by exact Ho. apply IH. exact Hops.
Qed.

Lemma record_all_frame_witness :
  Forall (fun o => ins_item o <> Str.lit "M4A4") mixed_calls
  /\ record_all init mixed_calls !! Str.lit "M4A4" = init !! Str.lit "M4A4".
Proof.
  assert (Hother : Forall (fun o => ins_item o <> Str.lit "M4A4") mixed_calls).
  { repeat constructor; vm_compute; discriminate. }
  split; [exact Hother|].
  exact (record_all_frame init mixed_calls (Str.lit "M4A4") Hother).
Defined.

Lemma time_ordered_filter (keep : PricePoint -> bool) (l : list PricePoint) :
  time_ordered l -> time_ordered (List.filter keep l).
Proof.
  unfold time_ordered. induction 1 as [|p l Hsorted IH Hle]; [constructor|].
  cbn [List.filter]. destruct (keep p); [|exact IH].
  constructor; [exact IH|].
  apply List.Forall_forall. intros q Hq. apply List.filter_In in Hq.
  rewrite List.Forall_forall in Hle. apply Hle. tauto.
Qed.

Lemma time_ordered_snoc (l : list PricePoint) (p : PricePoint) :
  time_ordered l ->
  Forall (fun q => timestamp q <= timestamp p) l ->
  time_ordered (l ++ [p]).
Proof.
  unfold time_ordered. induction 1 as [|q l Hsorted IH Hle]; intros Hbound.
  - repeat constructor.
  - apply Forall_cons_1 in Hbound. destruct Hbound as [Hq Hl].
    cbn [app]. constructor; [apply IH; exact Hl|].
    apply Forall_app. split; [exact Hle|]. repeat constructor. exact Hq.
Qed.

(** Every stored point was stamped by one of the calls, or was there at the
    start. *)
Lemma stored_points_origin self ops item (p : PricePoint) :
  In p (series (record_all self ops) item) ->
  In p (series self item)
  \/ exists o, In o ops /\ ins_item o = item /\ timestamp p = ins_now1 o.
Proof.
  revert p. induction ops as [|o ops IH] using rev_ind; intros p Hp.
  - left. exact Hp.
  - rewrite record_all_snoc in Hp. unfold apply, series in Hp.
    destruct (decide (ins_item o = item)) as [Heq|Hne].
    + subst item. rewrite add_price_point_lookup in Hp.
      cbn [default from_option id] in Hp.
      apply List.filter_In in Hp. destruct Hp as [Hp _].
      apply in_app_or in Hp. destruct Hp as [Hold|Hnew].
      * destruct (IH p Hold) as [Hstart|(o' & Ho' & Hitem & Hts)].
        -- left. exact Hstart.
        -- right. exists o'. split; [apply in_or_app; left; exact Ho'|].
           split; [exact Hitem|exact Hts].
      * right. exists o. split; [apply in_or_app; right; left; reflexivity|].
        split; [reflexivity|].
        destruct Hnew as [<-|[]]. reflexivity.
    + rewrite add_price_point_other in Hp by exact Hne.
      destruct (IH p Hp) as [Hstart|(o' & Ho' & Hitem & Hts)].
      * left. exact Hstart.
      * right. exists o'. split; [apply in_or_app; left; exact Ho'|].
        split; [exact Hitem|exact Hts].
Qed.

Lemma clock_monotone_snoc ops o :
  clock_monotone (ops ++ [o]) ->
  clock_monotone ops /\ Forall (fun o' => ins_now1 o' <= ins_now1 o) ops.
Proof.
  unfold clock_monotone. induction ops as [|a ops IH]; cbn [app]; intros H.
  - split; constructor.
  - apply StronglySorted_inv in H. destruct H as [Hrest Ha].
    destruct (IH Hrest) as [Hops Hbound].
    apply Forall_app in Ha. destruct Ha as [Ha Hao].
    split; [constructor; assumption|].
    constructor; [apply Forall_inv in Hao; exact Hao|exact Hbound].
Qed.

(** X2. When the clock never goes backwards from one call to the next,
    every series built from an empty history is in order of time: insertion
    order and time order coincide, and the retention sweep keeps it so. *)
Theorem series_time_ordered ops item :
  clock_monotone ops ->
  time_ordered (series (record_all init ops) item).
Proof.
  induction ops as [|o ops IH] using rev_ind; intros Hclock.
  - constructor.
  - apply clock_monotone_snoc in Hclock. destruct Hclock as [Hops Hbound].
    rewrite record_all_snoc. unfold apply, series.
    destruct (decide (ins_item o = item)) as [Heq|Hne].
    + subst item. rewrite add_price_point_lookup.
      cbn [default from_option id].
      apply time_ordered_filter, time_ordered_snoc; [apply IH; exact Hops|].
      apply List.Forall_forall. intros q Hq. cbn [timestamp].
      destruct (stored_points_origin init ops (ins_item o) q Hq)
        as [Hstart|(o' & Ho' & _ & Hts)].
      * unfold series, init in Hstart. rewrite lookup_empty in Hstart.
        destruct Hstart.
      * rewrite Hts. rewrite List.Forall_forall in Hbound.
        apply Hbound. exact Ho'.
    + rewrite add_price_point_other by exact Hne. apply IH. exact Hops.
Qed.

Lemma series_time_ordered_witness :
  clock_monotone mixed_calls
  /\ time_ordered (series (record_all init mixed_calls) (Str.lit "AK-47")).
Proof.
  assert (Hclock : clock_monotone mixed_calls).
  { unfold clock_monotone, mixed_calls.
    repeat (constructor; cbn [ins_now1]); lia. }
  split; [exact Hclock|].
  exact (series_time_ordered mixed_calls (Str.lit "AK-47") Hclock).
Defined.

(** A series grows by at most one point per call on its item. *)
Lemma series_length_bound self ops item :
  (length (series (record_all self ops) item)
   <= length (series self item) + inserts_on item ops)%nat.
Proof.
  induction ops as [|o ops IH] using rev_ind.
  - cbn. lia.
  - rewrite record_all_snoc. unfold apply, inserts_on.
    rewrite List.filter_app, length_app. cbn [List.filter].
    fold (inserts_on item ops).
    destruct (decide (ins_item o = item)) as [Heq|Hne].
    + rewrite bool_decide_eq_true_2 by exact Heq. cbn [length].
      subst item. unfold series at 1. rewrite add_price_point_lookup.
      cbn [default from_option id].
      pose proof (List.filter_length_le
                    (fun q => ins_now2 o - timedelta_days 30 <? timestamp q)
                    (series (record_all self ops) (ins_item o)
                       ++ [{| price := ins_price o;
                              timestamp := ins_now1 o |}])) as Hle.
      rewrite length_app in Hle. cbn [length] in Hle. lia.
    + rewrite bool_decide_eq_false_2 by exact Hne. cbn [length].
      unfold series at 1. rewrite add_price_point_other by exact Hne.
      fold (series (record_all self ops) item). lia.
Qed.

(** X3. Starting from an empty history, an item that has received fewer
    than 3 calls is answered InsufficientData by [detect_trend]; fewer than
    5, the default score 50 by [calculate_profit_potential]; fewer than 10,
    the neutral forecast of confidence 0 by [predict_price]. *)
Theorem defaults_until_enough_calls ops item (days : Z) :
  ((inserts_on item ops < 3)%nat ->
   detect_trend (record_all init ops) item
   = Val (trend_text InsufficientData))
  /\ ((inserts_on item ops < 5)%nat ->
      calculate_profit_potential (record_all init ops) item = Val 50)
  /\ ((inserts_on item ops < 10)%nat ->
      predict_price (record_all init ops) item days = Val insufficient_data).
Proof.
  pose proof (series_length_bound init ops item) as Hlen.
  unfold series at 2 in Hlen. unfold init in Hlen at 2.
  rewrite lookup_empty in Hlen. cbn [default from_option id length] in Hlen.
  unfold series in Hlen.
  unfold detect_trend, calculate_profit_potential, predict_price.
  destruct (record_all init ops !! item) as [hist|];
    cbn [default from_option id] in Hlen.
  - split; [|split]; intros Hfew.
    + assert (Hlt : (length hist <? 3)%nat = true)
        by (apply Nat.ltb_lt; lia).
      rewrite Hlt. reflexivity.
    + assert (Hlt : (length hist <? 5)%nat = true)
        by (apply Nat.ltb_lt; lia).
      rewrite Hlt. reflexivity.
    + assert (Hlt : (length hist <? 10)%nat = true)
        by (apply Nat.ltb_lt; lia).
      rewrite Hlt. reflexivity.
  - split; [|split]; reflexivity.
Qed.

Lemma defaults_until_enough_calls_witness :
  (inserts_on (Str.lit "AK-47") mixed_calls < 3)%nat
  /\ detect_trend (record_all init mixed_calls) (Str.lit "AK-47")
     = Val (trend_text InsufficientData)
  /\ calculate_profit_potential (record_all init mixed_calls)
       (Str.lit "AK-47") = Val 50
  /\ predict_price (record_all init mixed_calls) (Str.lit "AK-47") 7
     = Val insufficient_data.
Proof.
  assert (Hfew : (inserts_on (Str.lit "AK-47") mixed_calls < 3)%nat)
    by (vm_compute; lia).
  destruct (defaults_until_enough_calls mixed_calls (Str.lit "AK-47") 7)
    as (Htrend & Hscore & Hforecast).
  split; [exact Hfew|]. split; [exact (Htrend Hfew)|].
  split; [apply Hscore; lia|apply Hforecast; lia].
Defined.

End TimelineFacts.

(** ** What the three read operations depend on and return *)

Section AnalyticsFacts.

Import PriceAnalyzer Classifier Scorer Forecast Store.

#[local] Open Scope float_scope.

Lemma Val_inj {A : Type} (a b : A) : Val a = Val b -> a = b.
Proof. intros [= ->]. reflexivity. Qed.

Lemma classify_not_insufficient (w : list float) :
  classify w <> InsufficientData.
Proof.
  unfold classify.
  destruct (strictly_increasing w); [discriminate|].
  destruct (strictly_decreasing w); [discriminate|].
  destruct (first_price w * 1.1 <? last_price w); [discriminate|].
  destruct (last_price w <? first_price w * 0.9); discriminate.
Qed.

(** X4. [detect_trend] answers InsufficientData exactly when fewer than 3
    points are stored for the item: with 3 points or more one of the five
    trend labels is always produced, the exception handler never being the
    source of the answer. *)
Theorem insufficient_iff_short (self : history) (item : pystr) :
  detect_trend self item = Val (trend_text InsufficientData)
  <-> (length (series self item) < 3)%nat.
Proof.
  unfold series. destruct (self !! item) as [hist|] eqn:Hitem;
    cbn [default from_option id].
  - split.
    + intros Hrun.
      destruct (le_lt_dec 3 (length hist)) as [Hlen|Hlen]; [|exact Hlen].
      rewrite (detect_trend_window self item hist Hitem Hlen) in Hrun.
      apply Val_inj, trend_text_inj in Hrun.
      destruct (classify_not_insufficient _ Hrun).
    + intros Hshort. unfold detect_trend. rewrite Hitem.
      apply Nat.ltb_lt in Hshort. rewrite Hshort. reflexivity.
  - split.
    + intros _. cbn [length]. lia.
    + intros _. unfold detect_trend. rewrite Hitem. reflexivity.
Qed.

(** X5. Whatever is stored, a score returned by
    [calculate_profit_potential] lies between 0 and 100. *)
Theorem profit_potential_bounds (self : history) (item : pystr) (k : Z) :
  calculate_profit_potential self item = Val k -> (0 <= k <= 100)%Z.
Proof.
  intros Hrun.
  destruct (self !! item) as [hist|] eqn:Hitem.
  - destruct (le_lt_dec 5 (length hist)) as [Hlen|Hlen].
    + rewrite (profit_potential_window self item hist Hitem Hlen) in Hrun.
      cbv zeta in Hrun.
      destruct (lowest _ =? 0); [injection Hrun as <-; lia|].
      destruct (first_price _ =? 0); [injection Hrun as <-; lia|].
      destruct (Num.int_of_float _) as [whole|[]];
        try discriminate Hrun; injection Hrun as <-; lia.
    + unfold calculate_profit_potential in Hrun. rewrite Hitem in Hrun.
      apply Nat.ltb_lt in Hlen. rewrite Hlen in Hrun.
      injection Hrun as <-. lia.
  - unfold calculate_profit_potential in Hrun. rewrite Hitem in Hrun.
    injection Hrun as <-. lia.
Qed.

Lemma profit_potential_bounds_witness :
  calculate_profit_potential (observe (Str.lit "AK-47") jump_window)
    (Str.lit "AK-47") = Val 100%Z
  /\ (0 <= 100 <= 100)%Z.
Proof.
  assert (Hrun : calculate_profit_potential
                   (observe (Str.lit "AK-47") jump_window) (Str.lit "AK-47")
                 = Val 100%Z) by (vm_compute; reflexivity).
  split; [exact Hrun|].
  exact (profit_potential_bounds _ _ _ Hrun).
Defined.

Lemma classify_change_confidence (change : float) (days : Z) (p : Prediction) :
  classify_change change days = Val p ->
  (confidence p <= 85)%Z
  /\ (prediction p = neutral -> confidence p = 70%Z).
Proof.
  unfold classify_change.
  destruct (5 <? change).
  - destruct (Num.int_of_float _) as [c|e]; [|discriminate].
    cbn [Py.bind]. intros [= <-]. cbn [confidence prediction].
    split; [lia|discriminate].
  - destruct (change <? -5).
    + destruct (Num.int_of_float _) as [c|e]; [|discriminate].
      cbn [Py.bind]. intros [= <-]. cbn [confidence prediction].
      split; [lia|discriminate].
    + intros [= <-]. cbn [confidence prediction]. split; [lia|reflexivity].
Qed.

(** X6. Whatever is stored and whatever the horizon, a forecast returned by
    [predict_price] has confidence at most 85, and a neutral forecast has
    confidence 0 (no forecast was made) or exactly 70. *)
Theorem forecast_confidence (self : history) (item : pystr) (days : Z)
    (p : Prediction) :
  predict_price self item days = Val p ->
  (confidence p <= 85)%Z
  /\ (prediction p = neutral -> confidence p = 0%Z \/ confidence p = 70%Z).
Proof.
  unfold predict_price.
  destruct (self !! item) as [hist|];
    [|intros [= <-]; cbn; split; [lia|left; reflexivity]].
  destruct (length hist <? 10)%nat;
    [intros [= <-]; cbn; split; [lia|left; reflexivity]|].
  destruct (fit_change_percent _ days) as [[change|]|e]; cbn [Py.bind].
  - destruct (classify_change change days) as [q|e] eqn:Hclass;
      cbn [try_except].
    + intros [= <-].
      destruct (classify_change_confidence change days q Hclass) as [Hle Hn].
      split; [exact Hle|]. intros Hneutral. right. exact (Hn Hneutral).
    + destruct e; try discriminate;
        intros [= <-]; cbn; split; try lia; left; reflexivity.
  - cbn [try_except]. intros [= <-]. cbn. split; [lia|left; reflexivity].
  - cbn [try_except].
    destruct e; try discriminate;
      intros [= <-]; cbn; split; try lia; left; reflexivity.
Qed.

Lemma forecast_confidence_witness :
  predict_price (observe (Str.lit "AK-47") flat_window) (Str.lit "AK-47") 7
  = Val {| prediction := neutral; confidence := 70; message := MsgStable 7 |}
  /\ (70 <= 85)%Z
  /\ (70 = 0 \/ 70 = 70)%Z.
Proof.
  assert (Hrun : predict_price (observe (Str.lit "AK-47") flat_window)
                   (Str.lit "AK-47") 7
                 = Val {| prediction := neutral; confidence := 70;
                          message := MsgStable 7 |})
    by (vm_compute; reflexivity).
  destruct (forecast_confidence _ _ _ _ Hrun) as [Hle Hneutral].
  split; [exact Hrun|]. split; [exact Hle|exact (Hneutral eq_refl)].
Defined.




End AnalyticsFacts.

(** ** What the advisor can and cannot say *)

Section AdvisorExtras.

Import InvestmentAdvisor Rubric.

Variable str_lower : pystr -> pystr.
Variable int_of_str : pystr -> option Z.

(** X8. For every quote, trend text, potential and mode the rating of
    [analyze_item] is the plain sum of the base 50 and the adjustments, and
    lies between 35 and 85: the final clamp to [0,100] never changes it. *)
Theorem rating_within_35_85 (price_data : gmap pystr pystr) (trend : pystr)
    (potential : Z) (mode : pystr) :
  exists a,
    analyze_item str_lower int_of_str price_data trend potential mode = Val a
    /\ rating a =
         50 + bonus (Str.contains (Str.lit "рост") (str_lower trend)) 15
            + bonus (liquid int_of_str price_data) 10
            + bonus (70 <? potential) 10
            - bonus (Str.contains (Str.lit "падение") (str_lower trend)) 15
    /\ 35 <= rating a <= 85.
Proof.
  destruct (analyze_item_outcome str_lower int_of_str price_data trend
              potential mode) as (a & Hrun & Hrating & _).
  exists a. split; [exact Hrun|]. rewrite Hrating.
  unfold rubric_rating, bonus.
  destruct (Str.contains (Str.lit "рост") (str_lower trend));
    destruct (liquid int_of_str price_data);
    destruct (70 <? potential);
    destruct (Str.contains (Str.lit "падение") (str_lower trend)); lia.
Qed.

Lemma pros_set_rating (r : Z) (a : Analysis) : pros (set_rating r a) = pros a.
Proof. reflexivity. Qed.

Lemma cons_set_rating (r : Z) (a : Analysis) : cons (set_rating r a) = cons a.
Proof. reflexivity. Qed.

(** The lists of reasons, beside the rating. *)
Lemma analyze_item_reasons (price_data : gmap pystr pystr) (trend : pystr)
    (potential : Z) (mode : pystr) :
  exists a,
    analyze_item str_lower int_of_str price_data trend potential mode = Val a
    /\ pros a =
         (if Str.contains (Str.lit "рост") (str_lower trend)
          then [Str.lit "📈 Положительный тренд"] else [])
         ++ (if liquid int_of_str price_data
             then [Str.lit "💰 Высокая ликвидность"] else [])
         ++ (if 70 <? potential
             then [Str.lit "⚡ Высокий потенциал"] else [])
    /\ cons a =
         (if Str.contains (Str.lit "падение") (str_lower trend)
          then [Str.lit "📉 Отрицательный тренд"] else []).
Proof.
  unfold analyze_item, parse_int, liquid.
  destruct (Str.contains (Str.lit "рост") (str_lower trend));
    destruct (int_of_str _) as [v|]; cbn [try_except Py.bind fst snd];
    try destruct (100 <? v); cbn [try_except Py.bind fst snd];
    destruct (70 <? potential);
    destruct (Str.contains (Str.lit "падение") (str_lower trend));
    cbn [fst snd];
    match goal with
    | |- context [set_rating ?r ?base] =>
        pose proof (pros_set_rating r base) as Hp;
        pose proof (cons_set_rating r base) as Hc;
        revert Hp Hc; generalize (set_rating r base); intros an Hp Hc
    end;
    (destruct (Str.eqb mode (Str.lit "investor"));
     [ destruct (70 <? rating an); [| destruct (50 <? rating an)]
     | destruct (60 <? rating an); [| destruct (45 <? rating an)] ]);
    (eexists; split; [reflexivity|]);
    cbn [set_advice pros cons]; rewrite Hp, Hc;
    cbn [append_pro append_con pros cons app]; split; reflexivity.
Qed.

End AdvisorExtras.

Section AdvisorLabelExtras.

Import InvestmentAdvisor Rubric.

Variable int_of_str : pystr -> option Z.

(** X9. On the labels of [detect_trend]: an item whose trend is a decline
    label is never recommended for purchase, in any mode; and in investor
    mode a purchase is recommended only for a growth label together with
    high liquidity or high potential. *)
Theorem buy_needs_growth (price_data : gmap pystr pystr) (l : TrendLabel)
    (potential : Z) (mode : pystr) :
  exists a,
    analyze_item Str.lower_basic int_of_str price_data (trend_text l)
      potential mode = Val a
    /\ (decline_bearing l = true ->
        recommendation a <> recommendation_text Buy)
    /\ (mode = Str.lit "investor" ->
        recommendation a = recommendation_text Buy ->
        growth_bearing l = true
        /\ (liquid int_of_str price_data = true \/ (70 <? potential) = true)).
Proof.
  destruct (analyze_item_outcome Str.lower_basic int_of_str price_data
              (trend_text l) potential mode) as (a & Hrun & Hrating & Hrec & _).
  rewrite label_growth_test, label_decline_test in Hrating.
  exists a. split; [exact Hrun|]. rewrite Hrec, Hrating.
  unfold rubric_rating, bonus. split.
  - intros Hdecline Hbuy. apply recommendation_text_inj in Hbuy.
    revert Hbuy. rewrite Hdecline.
    assert (Hgrowth : growth_bearing l = false)
      by (destruct l; try discriminate Hdecline; reflexivity).
    rewrite Hgrowth. unfold recommend.
    destruct (mode_of mode);
      destruct (liquid int_of_str price_data);
      destruct (70 <? potential); cbn; discriminate.
  - intros -> Hbuy. apply recommendation_text_inj in Hbuy.
    revert Hbuy. rewrite mode_of_investor. unfold recommend.
    destruct (growth_bearing l);
      destruct (liquid int_of_str price_data);
      destruct (70 <? potential);
      destruct (decline_bearing l); cbn; intros Hbuy;
      try discriminate Hbuy; split; auto.
Qed.

(** X10. The reasons shown with an analysis are exactly the adjustments
    made to its rating, in the fixed order trend, liquidity, potential for
    the pros, the decline tag being the only possible con. *)
Theorem reasons_match_adjustments (price_data : gmap pystr pystr)
    (l : TrendLabel) (potential : Z) (mode : pystr) :
  exists a,
    analyze_item Str.lower_basic int_of_str price_data (trend_text l)
      potential mode = Val a
    /\ pros a =
         (if growth_bearing l then [Str.lit "📈 Положительный тренд"] else [])
         ++ (if liquid int_of_str price_data
             then [Str.lit "💰 Высокая ликвидность"] else [])
         ++ (if 70 <? potential then [Str.lit "⚡ Высокий потенциал"] else [])
    /\ cons a =
         (if decline_bearing l then [Str.lit "📉 Отрицательный тренд"] else []).
Proof.
  destruct (analyze_item_reasons Str.lower_basic int_of_str price_data
              (trend_text l) potential mode) as (a & Hrun & Hpros & Hcons).
  rewrite label_growth_test in Hpros. rewrite label_decline_test in Hcons.
  exists a. split; [exact Hrun|]. split; [exact Hpros|exact Hcons].
Qed.

End AdvisorLabelExtras.

Section AdvisorLabelWitness.

Import InvestmentAdvisor Rubric.

Lemma buy_needs_growth_witness :
  exists a,
    analyze_item Str.lower_basic Str.int_decimal
      {[ Str.lit "volume" := Str.lit "1,234" ]} (trend_text StrongGrowth) 50
      (Str.lit "investor") = Val a
    /\ recommendation a = recommendation_text Buy
    /\ growth_bearing StrongGrowth = true
    /\ (liquid Str.int_decimal {[ Str.lit "volume" := Str.lit "1,234" ]}
        = true \/ (70 <? 50) = true).
Proof.
  destruct (buy_needs_growth Str.int_decimal
              {[ Str.lit "volume" := Str.lit "1,234" ]} StrongGrowth 50
              (Str.lit "investor")) as (a & Hrun & _ & Hbuy).
  exists a. split; [exact Hrun|].
  assert (Hrec : recommendation a = recommendation_text Buy).
  { revert Hrun. vm_compute. intros Hrun. apply Val_inj in Hrun.
    rewrite <- Hrun. reflexivity. }
  split; [exact Hrec|]. exact (Hbuy eq_refl Hrec).
Defined.

End AdvisorLabelWitness.

(** * The handlers *)

(** ** Users and portfolios *)

Section UserFacts.

Import Bot.

Implicit Types (d : users) (u : User) (k : Z).

Lemma get_set_eq d k u : get (set d k u) k = Some u.
Proof.
  induction d as [|[k' u'] d IH]; cbn [set get].
  - rewrite Z.eqb_refl. reflexivity.
  - destruct (Z.eqb k' k) eqn:Hk; cbn [get].
    + rewrite Z.eqb_refl. reflexivity.
    + rewrite Hk. exact IH.
Qed.

Lemma get_set_ne d k k' u : k <> k' -> get (set d k u) k' = get d k'.
Proof.
  intros Hne. induction d as [|[k0 u0] d IH]; cbn [set get].
  - destruct (Z.eqb k k') eqn:Hk; [apply Z.eqb_eq in Hk; contradiction|].
    reflexivity.
  - destruct (Z.eqb k0 k) eqn:Hk0; cbn [get].
    + apply Z.eqb_eq in Hk0. subst k0.
      destruct (Z.eqb k k') eqn:Hk; [apply Z.eqb_eq in Hk; contradiction|].
      reflexivity.
    + rewrite IH. reflexivity.
Qed.

Lemma get_none_keys d k : get d k = None -> ~ In k (map fst d).
Proof.
  induction d as [|[k' u'] d IH]; cbn [get map fst]; intros Hget Hin.
  - destruct Hin.
  - destruct (Z.eqb k' k) eqn:Hk; [discriminate|].
    destruct Hin as [Heq|Hin]; [subst k'; rewrite Z.eqb_refl in Hk;
                                discriminate|].
    exact (IH Hget Hin).
Qed.

Lemma keys_set d k u :
  map fst (set d k u)
  = match get d k with
    | Some _ => map fst d
    | None => map fst d ++ [k]
    end.
Proof.
  induction d as [|[k' u'] d IH]; cbn [set get map fst app]; [reflexivity|].
  destruct (Z.eqb k' k) eqn:Hk; cbn [map fst].
  - apply Z.eqb_eq in Hk. subst k'. reflexivity.
  - rewrite IH. destruct (get d k); reflexivity.
Qed.

Lemma Forall_set (P : Z * User -> Prop) d k u :
  Forall P d -> P (k, u) -> Forall P (set d k u).
Proof.
  intros Hd Hu. induction Hd as [|[k' u'] d Hhd Htl IH]; cbn [set].
  - constructor; [exact Hu|constructor].
  - destruct (Z.eqb k' k); constructor; assumption.
Qed.

Lemma get_in d k u : get d k = Some u -> In (k, u) d.
Proof.
  induction d as [|[k' u'] d IH]; cbn [get]; [discriminate|].
  destruct (Z.eqb k' k) eqn:Hk.
  - apply Z.eqb_eq in Hk. intros [= ->]. subst k'. left. reflexivity.
  - intros Hget. right. exact (IH Hget).
Qed.

Lemma holds_in (p : list Z) (i : Z) : holds p i = true <-> In i p.
Proof.
  unfold holds. rewrite existsb_exists. split.
  - intros (x & Hx & Heq). apply Z.eqb_eq in Heq. subst x. exact Hx.
  - intros Hin. exists i. split; [exact Hin|apply Z.eqb_refl].
Qed.

Lemma well_formed_set d k u :
  well_formed d -> NoDup (portfolio u) -> well_formed (set d k u).
Proof.
  intros [Hkeys Hports] Hu. split.
  - rewrite keys_set. destruct (get d k) eqn:Hget; [exact Hkeys|].
    apply NoDup_app. split; [exact Hkeys|]. split.
    + intros x Hx Hin. apply list_elem_of_In in Hx.
      apply list_elem_of_singleton in Hin. subst x.
      exact (get_none_keys d k Hget Hx).
    + apply NoDup_singleton.
  - apply Forall_set; [exact Hports|exact Hu].
Qed.

Lemma well_formed_get d k u :
  well_formed d -> get d k = Some u -> NoDup (portfolio u).
Proof.
  intros [_ Hports] Hget. rewrite List.Forall_forall in Hports.
  exact (Hports (k, u) (get_in d k u Hget)).
Qed.

Lemma press_well_formed d (e : Press) :
  well_formed d -> well_formed (press d e).
Proof.
  intros Hd. destruct e as [uid|uid data|uid idx]; cbn [press].
  - unfold register. destruct (get d uid); [exact Hd|].
    apply well_formed_set; [exact Hd|]. apply NoDup_nil_2.
  - unfold handle_mode_change. destruct (get d uid) as [u|] eqn:Hget;
      [|exact Hd].
    apply well_formed_set; [exact Hd|]. cbn [portfolio].
    exact (well_formed_get d uid u Hd Hget).
  - unfold add_to_portfolio. destruct (get d uid) as [u|] eqn:Hget;
      [|exact Hd].
    destruct (holds (portfolio u) idx) eqn:Hholds; cbn [negb]; [exact Hd|].
    apply well_formed_set; [exact Hd|]. cbn [portfolio].
    apply NoDup_app. split; [exact (well_formed_get d uid u Hd Hget)|].
    split; [|apply NoDup_singleton].
    intros x Hx Hin. apply list_elem_of_singleton in Hin. subst x.
    apply list_elem_of_In, holds_in in Hx. congruence.
Qed.

(** X11. Whatever buttons are pressed, by whomever and in whatever order,
    from an empty [user_data]: each user has one entry, and no portfolio
    lists an item twice. *)
Theorem portfolios_without_duplicates (es : list Press) (uid : Z) (u : User) :
  get (press_all [] es) uid = Some u ->
  NoDup (map fst (press_all [] es)) /\ NoDup (portfolio u).
Proof.
  assert (Hwf : well_formed (press_all [] es)).
  { unfold press_all. induction es as [|e es IH] using rev_ind.
    - split; constructor.
    - rewrite fold_left_app. cbn [fold_left].
      apply press_well_formed. exact IH. }
  intros Hget. split; [exact (proj1 Hwf)|].
  exact (well_formed_get _ uid u Hwf Hget).
Qed.

Lemma portfolios_without_duplicates_witness :
  get (press_all [] [PressStart 7; PressAdd 7 3; PressAdd 7 3; PressAdd 7 1])
    7
  = Some {| mode := Str.lit "investor"; portfolio := [3; 1];
            notifications := true; alerts := [] |}
  /\ NoDup (map fst (press_all []
                       [PressStart 7; PressAdd 7 3; PressAdd 7 3;
                        PressAdd 7 1]))
  /\ NoDup [3; 1].
Proof.
  assert (Hget : get (press_all []
                        [PressStart 7; PressAdd 7 3; PressAdd 7 3;
                         PressAdd 7 1]) 7
                 = Some {| mode := Str.lit "investor"; portfolio := [3; 1];
                           notifications := true; alerts := [] |})
    by reflexivity.
  split; [exact Hget|].
  exact (portfolios_without_duplicates _ 7 _ Hget).
Defined.

(** X12. For a registered user, [add_to_portfolio] leaves the item in the
    portfolio and touches nothing else of the user or of the other users;
    asking again changes nothing and is answered that the item is already
    there. An unregistered user gets a [KeyError]. *)
Theorem add_to_portfolio_once (d : users) (uid idx : Z) :
  match get d uid with
  | None => add_to_portfolio d uid idx = None
  | Some u =>
    exists d1 answer u1,
      add_to_portfolio d uid idx = Some (d1, answer)
      /\ get d1 uid = Some u1
      /\ In idx (portfolio u1)
      /\ mode u1 = mode u /\ notifications u1 = notifications u
      /\ (forall other, other <> uid -> get d1 other = get d other)
      /\ add_to_portfolio d1 uid idx
         = Some (d1, Str.lit "ℹ️ Уже в портфеле")
  end.
Proof.
  destruct (get d uid) as [u|] eqn:Hget.
  - unfold add_to_portfolio at 1. rewrite Hget.
    destruct (holds (portfolio u) idx) eqn:Hholds; cbn [negb].
    + exists d, (Str.lit "ℹ️ Уже в портфеле"), u.
      split; [reflexivity|]. split; [exact Hget|].
      split; [apply holds_in; exact Hholds|].
      split; [reflexivity|]. split; [reflexivity|].
      split; [reflexivity|].
      unfold add_to_portfolio. rewrite Hget, Hholds. reflexivity.
    + do 3 eexists. split; [reflexivity|].
      split; [apply get_set_eq|]. cbn [portfolio mode notifications].
      split; [apply in_or_app; right; left; reflexivity|].
      split; [reflexivity|]. split; [reflexivity|].
      split; [intros other Hne; apply get_set_ne; congruence|].
      unfold add_to_portfolio. rewrite get_set_eq. cbn [portfolio].
      assert (Hnow : holds (portfolio u ++ [idx]) idx = true)
        by (apply holds_in, in_or_app; right; left; reflexivity).
      rewrite Hnow. reflexivity.
  - unfold add_to_portfolio. rewrite Hget. reflexivity.
Qed.

End UserFacts.

(** ** Changing mode *)

Section ModeFacts.

Import Bot.

Lemma startswith_self_app (pat rest : pystr) :
  Str.startswith (pat ++ rest) pat = true.
Proof.
  induction pat as [|c pat IH]; [destruct rest; reflexivity|].
  cbn [app Str.startswith]. rewrite N.eqb_refl. exact IH.
Qed.

Lemma remove_from_skip (pat dropped rest : pystr) :
  remove_from pat (length dropped) (dropped ++ rest) = remove_from pat 0 rest.
Proof.
  induction dropped as [|c dropped IH]; [reflexivity|].
  cbn [length app remove_from]. exact IH.
Qed.

Lemma remove_from_absent (pat s : pystr) :
  Str.contains pat s = false -> remove_from pat 0 s = s.
Proof.
  induction s as [|c s IH]; [reflexivity|].
  cbn [Str.contains]. intros Habsent.
  apply orb_false_iff in Habsent. destruct Habsent as [Hhere Hlater].
  cbn [remove_from]. rewrite Hhere, (IH Hlater). reflexivity.
Qed.

(** Removing a prefix that does not occur again gives back the rest. *)
Lemma remove_all_prefix (pat rest : pystr) :
  pat <> [] -> Str.contains pat rest = false ->
  remove_all pat (pat ++ rest) = rest.
Proof.
  intros Hpat Habsent. destruct pat as [|c pat]; [contradiction|].
  unfold remove_all.
  pose proof (startswith_self_app (c :: pat) rest) as Hstart.
  cbn [app] in Hstart |- *. cbn [remove_from]. rewrite Hstart.
  replace (length (c :: pat) - 1)%nat with (length pat)
    by (cbn [length]; lia).
  rewrite remove_from_skip.
  apply remove_from_absent. exact Habsent.
Qed.

(** X13. A mode button carries the text [mode_] followed by the mode. For
    a registered user and a mode in which [mode_] does not occur,
    [handle_mode_change] stores exactly that mode, keeps the portfolio and
    the notification setting, and leaves every other user as they were.
    For an unregistered user it raises [KeyError]. *)
Theorem mode_button_round_trip (d : users) (uid : Z) (m : pystr) :
  Str.contains (Str.lit "mode_") m = false ->
  match get d uid with
  | None => handle_mode_change d uid (Str.lit "mode_" ++ m) = None
  | Some u =>
    exists d',
      handle_mode_change d uid (Str.lit "mode_" ++ m)
      = Some (d', mode_name m)
      /\ get d' uid
         = Some {| mode := m; portfolio := portfolio u;
                   notifications := notifications u; alerts := alerts u |}
      /\ (forall other, other <> uid -> get d' other = get d other)
  end.
Proof.
  intros Habsent.
  assert (Hmode : remove_all (Str.lit "mode_") (Str.lit "mode_" ++ m) = m).
  { apply remove_all_prefix; [vm_compute; discriminate|exact Habsent]. }
  unfold handle_mode_change. rewrite Hmode.
  destruct (get d uid) as [u|]; [|reflexivity].
  eexists. split; [reflexivity|]. split; [apply get_set_eq|].
  intros other Hne. apply get_set_ne. congruence.
Qed.

Lemma mode_button_round_trip_witness :
  Str.contains (Str.lit "mode_") (Str.lit "trader") = false
  /\ exists d',
       handle_mode_change [(7, new_user)] 7 (Str.lit "mode_" ++ Str.lit "trader")
       = Some (d', mode_name (Str.lit "trader"))
       /\ get d' 7
          = Some {| mode := Str.lit "trader"; portfolio := [];
                    notifications := true; alerts := [] |}
       /\ (forall other, other <> 7 -> get d' other = get [(7, new_user)] other).
Proof.
  assert (Habsent : Str.contains (Str.lit "mode_") (Str.lit "trader") = false)
    by (vm_compute; reflexivity).
  split; [exact Habsent|].
  exact (mode_button_round_trip [(7, new_user)] 7 (Str.lit "trader") Habsent).
Defined.

End ModeFacts.

Section ModeAndAdvice.

Import Bot InvestmentAdvisor.

Variable str_lower : pystr -> pystr.
Variable int_of_str : pystr -> option Z.

(** X14. What is shown and what is done part ways for a mode the table of
    [handle_mode_change] does not know: the user is told the mode is
    Investor, yet [analyze_item], given the stored mode, applies the trader
    thresholds. *)
Theorem unknown_mode_shown_as_investor (d : users) (uid : Z) (u : User)
    (m : pystr) (price_data : gmap pystr pystr) (trend : pystr)
    (potential : Z) :
  get d uid = Some u ->
  Str.contains (Str.lit "mode_") m = false ->
  m <> Str.lit "investor" -> m <> Str.lit "trader" -> m <> Str.lit "news" ->
  exists d' u' a,
    handle_mode_change d uid (Str.lit "mode_" ++ m)
    = Some (d', Str.lit "💎 Инвестор")
    /\ get d' uid = Some u'
    /\ analyze_item str_lower int_of_str price_data trend potential (mode u')
       = Val a
    /\ recommendation a =
         Rubric.recommendation_text
           (Rubric.recommend Rubric.Trader (rating a)).
Proof.
  intros Hget Habsent Hinv Htrader Hnews.
  assert (Hmode : remove_all (Str.lit "mode_") (Str.lit "mode_" ++ m) = m).
  { apply remove_all_prefix; [vm_compute; discriminate|exact Habsent]. }
  destruct (analyze_item_outcome str_lower int_of_str price_data trend
              potential m) as (a & Hrun & _ & Hrec & _).
  rewrite (mode_of_other m Hinv) in Hrec.
  unfold handle_mode_change. rewrite Hmode, Hget.
  do 3 eexists. split; [|split; [apply get_set_eq|]].
  - unfold mode_name, Str.eqb.
    rewrite !bool_decide_eq_false_2 by assumption. reflexivity.
  - cbn [mode]. split; [exact Hrun|exact Hrec].
Qed.

End ModeAndAdvice.

Section ModeAndAdviceWitness.

Import Bot InvestmentAdvisor.

Lemma unknown_mode_shown_as_investor_witness :
  get [(7, new_user)] 7 = Some new_user
  /\ Str.contains (Str.lit "mode_") (Str.lit "scalper") = false
  /\ exists d' u' a,
       handle_mode_change [(7, new_user)] 7 (Str.lit "mode_" ++ Str.lit "scalper")
       = Some (d', Str.lit "💎 Инвестор")
       /\ get d' 7 = Some u'
       /\ analyze_item Str.lower_basic Str.int_decimal ∅
            (trend_text StableGrowth) 50 (mode u') = Val a
       /\ recommendation a =
            Rubric.recommendation_text
              (Rubric.recommend Rubric.Trader (rating a)).
Proof.
  assert (Habsent : Str.contains (Str.lit "mode_") (Str.lit "scalper") = false)
    by (vm_compute; reflexivity).
  split; [reflexivity|]. split; [exact Habsent|].
  apply (unknown_mode_shown_as_investor Str.lower_basic Str.int_decimal
           [(7, new_user)] 7 new_user (Str.lit "scalper") ∅
           (trend_text StableGrowth) 50 eq_refl Habsent);
    vm_compute; discriminate.
Defined.

End ModeAndAdviceWitness.

(** ** Choosing an item, and the trading signal *)

Section ItemFacts.

Import Bot PriceAnalyzer Classifier Store.

(** X15. The guard [item_idx >= len(POPULAR_ITEMS)] bounds the index from
    above only. An index from 0 to the length selects that item; a negative
    index down to minus the length passes the guard and selects from the
    end of the list; a lower one passes the guard too and raises
    [IndexError]. *)
Theorem select_item_bounds (items : list pystr) (idx : Z) :
  let n := Z.of_nat (length items) in
  (n <= idx -> select_item items idx = None)
  /\ (0 <= idx < n ->
      exists x, nth_error items (Z.to_nat idx) = Some x
                /\ select_item items idx = Some (Val x))
  /\ (- n <= idx < 0 ->
      exists x, nth_error items (Z.to_nat (n + idx)) = Some x
                /\ select_item items idx = Some (Val x))
  /\ (idx < - n -> select_item items idx = Some (Raise IndexError)).
Proof.
  intros n. unfold select_item, Seq.index. fold n.
  split; [|split; [|split]].
  - intros Hge. apply Z.leb_le in Hge. rewrite Hge. reflexivity.
  - intros Hin.
    destruct (n <=? idx) eqn:Hguard; [apply Z.leb_le in Hguard; lia|].
    destruct (idx <? 0) eqn:Hneg; [apply Z.ltb_lt in Hneg; lia|].
    rewrite Hneg.
    destruct (nth_error items (Z.to_nat idx)) as [x|] eqn:Hnth.
    + exists x. split; reflexivity.
    + apply nth_error_None in Hnth. lia.
  - intros Hin.
    destruct (n <=? idx) eqn:Hguard; [apply Z.leb_le in Hguard; lia|].
    destruct (idx <? 0) eqn:Hneg; [|apply Z.ltb_ge in Hneg; lia].
    destruct (n + idx <? 0) eqn:Hlow; [apply Z.ltb_lt in Hlow; lia|].
    destruct (nth_error items (Z.to_nat (n + idx))) as [x|] eqn:Hnth.
    + exists x. split; reflexivity.
    + apply nth_error_None in Hnth. lia.
  - intros Hlow.
    destruct (n <=? idx) eqn:Hguard; [apply Z.leb_le in Hguard; lia|].
    destruct (idx <? 0) eqn:Hneg; [|apply Z.ltb_ge in Hneg; lia].
    destruct (n + idx <? 0) eqn:Hbelow; [reflexivity|].
    apply Z.ltb_ge in Hbelow. lia.
Qed.

Lemma select_item_bounds_witness :
  (8 <= 8 /\ select_item POPULAR_ITEMS 8 = None)
  /\ (- 8 <= -1 < 0
      /\ exists x, nth_error POPULAR_ITEMS (Z.to_nat (8 + -1)) = Some x
                   /\ select_item POPULAR_ITEMS (-1) = Some (Val x))
  /\ (-9 < - 8 /\ select_item POPULAR_ITEMS (-9) = Some (Raise IndexError)).
Proof.
  destruct (select_item_bounds POPULAR_ITEMS 8) as (Habove & _).
  destruct (select_item_bounds POPULAR_ITEMS (-1)) as (_ & _ & Hend & _).
  destruct (select_item_bounds POPULAR_ITEMS (-9)) as (_ & _ & _ & Hbelow).
  split; [split; [lia|apply Habove; cbn; lia]|].
  split; [split; [lia|apply Hend; cbn; lia]|].
  split; [lia|apply Hbelow; cbn; lia].
Defined.

End ItemFacts.

Section SignalFacts.

Import Bot PriceAnalyzer Classifier Store.

#[local] Open Scope float_scope.

Lemma strong_growth_text (l : TrendLabel) :
  Str.contains (Str.lit "Сильный рост") (trend_text l)
  = match l with StrongGrowth => true | _ => false end.
Proof. destruct l; vm_compute; reflexivity. Qed.

Lemma classify_strong_growth (w : list float) :
  match classify w with StrongGrowth => true | _ => false end
  = strong_growth_window w.
Proof.
  unfold classify, strong_growth_window.
  destruct (strictly_increasing w); [reflexivity|].
  destruct (strictly_decreasing w); [reflexivity|].
  destruct (first_price w * 1.1 <? last_price w); [reflexivity|].
  destruct (last_price w <? first_price w * 0.9); reflexivity.
Qed.

(** X16. The signal test of [monitor_prices], on what the analyzer
    returns: with fewer than 3 stored points there is never a signal; with
    3 or more, there is one exactly when the score exceeds 75 or the last-7
    window is non-monotonic and ends more than 10% above its start. A
    strictly rising window, however steep, gives no signal by its trend. *)
Theorem signal_conditions (self : history) (item : pystr) :
  let points := series self item in
  let w := map price (Seq.last_n 7 points) in
  ((length points < 3)%nat -> monitor_signal self item = Val false)
  /\ ((3 <= length points)%nat ->
      forall k : Z,
        calculate_profit_potential self item = Val k ->
        monitor_signal self item
        = Val (negb (strictly_increasing w) && negb (strictly_decreasing w)
               && (first_price w * 1.1 <? last_price w)
               || (75 <? k)%Z)).
Proof.
  unfold series, monitor_signal.
  destruct (self !! item) as [hist|] eqn:Hitem; cbn [default from_option id].
  - split.
    + intros Hshort.
      assert (Htrend : detect_trend self item
                       = Val (trend_text InsufficientData)).
      { unfold detect_trend. rewrite Hitem.
        assert (Hlt : (length hist <? 3)%nat = true)
          by (apply Nat.ltb_lt; lia).
        rewrite Hlt. reflexivity. }
      assert (Hscore : calculate_profit_potential self item = Val 50%Z).
      { unfold calculate_profit_potential. rewrite Hitem.
        assert (Hlt : (length hist <? 5)%nat = true)
          by (apply Nat.ltb_lt; lia).
        rewrite Hlt. reflexivity. }
      rewrite Htrend, Hscore. cbn [Py.bind]. unfold signal_due.
      rewrite strong_growth_text. reflexivity.
    + intros Hlen k Hscore.
      rewrite (detect_trend_window self item hist Hitem Hlen), Hscore.
      cbn [Py.bind]. unfold signal_due.
      rewrite strong_growth_text, classify_strong_growth. reflexivity.
  - split.
    + intros _.
      assert (Htrend : detect_trend self item
                       = Val (trend_text InsufficientData))
        by (unfold detect_trend; rewrite Hitem; reflexivity).
      assert (Hscore : calculate_profit_potential self item = Val 50%Z)
        by (unfold calculate_profit_potential; rewrite Hitem; reflexivity).
      rewrite Htrend, Hscore. cbn [Py.bind]. unfold signal_due.
      rewrite strong_growth_text. reflexivity.
    + cbn [length]. lia.
Qed.

Lemma signal_conditions_witness :
  (3 <= length (series (observe (Str.lit "AK-47") steep_rise)
                  (Str.lit "AK-47")))%nat
  /\ calculate_profit_potential (observe (Str.lit "AK-47") steep_rise)
       (Str.lit "AK-47") = Val 50%Z
  /\ monitor_signal (observe (Str.lit "AK-47") steep_rise)
       (Str.lit "AK-47") = Val false
  /\ (length (series init (Str.lit "AK-47")) < 3)%nat
  /\ monitor_signal init (Str.lit "AK-47") = Val false.
Proof.
  assert (Hlen : (3 <= length
                    (series (observe (Str.lit "AK-47") steep_rise)
                       (Str.lit "AK-47")))%nat) by (vm_compute; lia).
  assert (Hscore : calculate_profit_potential
                     (observe (Str.lit "AK-47") steep_rise)
                     (Str.lit "AK-47") = Val 50%Z)
    by (vm_compute; reflexivity).
  assert (Hnone : (length (series init (Str.lit "AK-47")) < 3)%nat)
    by (vm_compute; lia).
  destruct (signal_conditions (observe (Str.lit "AK-47") steep_rise)
              (Str.lit "AK-47")) as [_ Hrules].
  destruct (signal_conditions init (Str.lit "AK-47")) as [Hfew _].
  split; [exact Hlen|]. split; [exact Hscore|].
  split; [|split; [exact Hnone|exact (Hfew Hnone)]].
  rewrite (Hrules Hlen 50%Z Hscore). vm_compute. reflexivity.
Defined.

End SignalFacts.

(** ** News *)

Section SubstringFacts.





End SubstringFacts.

Section ImpactFacts.

Import NewsParser.

Variable str_lower : pystr -> pystr.

Hypothesis lower_app :
  forall a b : pystr, str_lower (a ++ b) = str_lower a ++ str_lower b.




End ImpactFacts.

Section ImpactWitness.

Import NewsParser.



End ImpactWitness.

Section NewsFacts.

Import Bot.

Implicit Types (news_cache news_items : list NewsItem) (user_data : users).

Lemma stamp_titles (clock : nat -> datetime) news_items :
  map title (stamp clock news_items) = map title news_items.
Proof.
  unfold stamp. revert clock.
  induction news_items as [|it rest IH]; intros clock; [reflexivity|].
  rewrite imap_cons. cbn [map title set_fetched]. f_equal.
  exact (IH (fun i => clock (S i))).
Qed.

(** X18. Every message sent by [check_news] is about an item of the list
    just fetched, rated High or Medium, and goes to a registered user whose
    notifications are on. If the cache held items, the title announced was
    not among them; if the cache was empty, only the first item of the list
    can be announced. *)
Theorem check_news_alerts_sound news_cache user_data news_items
    (clock : nat -> datetime) (alert : NewsAlert) :
  In alert (snd (check_news news_cache user_data news_items clock)) ->
  exists it u,
    In it news_items
    /\ alert_title alert = title it
    /\ alert_impact alert = impact it
    /\ (impact it = NewsParser.HIGH \/ impact it = NewsParser.MEDIUM)
    /\ In (alert_to alert, u) user_data /\ notifications u = true
    /\ (news_cache <> [] -> ~ In (title it) (map title news_cache))
    /\ (news_cache = [] -> hd_error news_items = Some it).
Proof.
  unfold check_news. destruct news_items as [|first rest]; [intros []|].
  cbn [snd]. intros Hin. apply in_flat_map in Hin.
  destruct Hin as (it & Hfresh & Halert).
  destruct (important it) eqn:Himportant; [|destruct Halert].
  unfold alerts_for in Halert. apply in_map_iff in Halert.
  destruct Halert as ([uid u] & <- & Huser).
  apply List.filter_In in Huser. destruct Huser as [Huser Hon].
  exists it, u. cbn [alert_title alert_impact alert_to fst snd] in *.
  assert (Hrated : impact it = NewsParser.HIGH
                   \/ impact it = NewsParser.MEDIUM).
  { unfold important in Himportant. apply bool_decide_eq_true_1 in Himportant.
    apply elem_of_cons in Himportant. destruct Himportant as [->|Hm];
      [left; reflexivity|].
    apply list_elem_of_singleton in Hm. right. exact Hm. }
  unfold new_news in Hfresh.
  destruct news_cache as [|cached others].
  - assert (Hfirst : it = first).
    { cbn [firstn] in Hfresh. destruct Hfresh as [<-|[]]. reflexivity. }
    subst it. repeat split; try assumption; try reflexivity.
    + left. reflexivity.
    + intros Hne. contradiction.
  - apply List.filter_In in Hfresh. destruct Hfresh as [Hitem Hnew].
    apply negb_true_iff, bool_decide_eq_false_1 in Hnew.
    repeat split; try assumption; try reflexivity.
    + intros _ Hcached. apply Hnew, list_elem_of_In. exact Hcached.
    + intros Hempty. discriminate Hempty.
Qed.

Lemma check_news_alerts_sound_witness :
  exists alert it u,
    In alert (snd (check_news [] [(1, new_user); (2, quiet_user)]
                     [case_item; blog_item] tick))
    /\ In it [case_item; blog_item]
    /\ alert_title alert = title it
    /\ (impact it = NewsParser.HIGH \/ impact it = NewsParser.MEDIUM)
    /\ In (alert_to alert, u) [(1, new_user); (2, quiet_user)]
    /\ notifications u = true.
Proof.
  assert (Hin : In {| alert_to := 1; alert_title := title case_item;
                      alert_date := date case_item;
                      alert_impact := impact case_item |}
                  (snd (check_news [] [(1, new_user); (2, quiet_user)]
                          [case_item; blog_item] tick))).
  { left. reflexivity. }
  destruct (check_news_alerts_sound _ _ _ _ _ Hin)
    as (it & u & H1 & H2 & _ & H4 & H5 & H6 & _).
  eexists _, it, u. split; [exact Hin|].
  split; [exact H1|]. split; [exact H2|]. split; [exact H4|].
  split; [exact H5|exact H6].
Defined.

Lemma filter_none {A : Type} (f : A -> bool) (l : list A) :
  (forall x, In x l -> f x = false) -> List.filter f l = [].
Proof.
  induction l as [|x l IH]; intros Hall; [reflexivity|].
  cbn [List.filter]. rewrite (Hall x (or_introl eq_refl)).
  apply IH. intros y Hy. apply Hall. right. exact Hy.
Qed.

(** X19. Polling twice with the same non-empty list announces nothing the
    second time, whoever the users are then: the first poll has put every
    title of the list in the cache. *)
Theorem check_news_twice_silent news_cache user_data user_data' news_items
    (clock clock' : nat -> datetime) :
  news_items <> [] ->
  snd (check_news
         (fst (check_news news_cache user_data news_items clock))
         user_data' news_items clock')
  = [].
Proof.
  intros Hfeed. destruct news_items as [|first rest]; [contradiction|].
  cbn [check_news fst snd]. unfold new_news.
  destruct (stamp clock (first :: rest)) as [|cached others] eqn:Hstamped.
  - apply (f_equal (map title)) in Hstamped.
    rewrite stamp_titles in Hstamped. discriminate Hstamped.
  - rewrite <- Hstamped, stamp_titles, filter_none; [reflexivity|].
    intros it Hit. apply negb_false_iff, bool_decide_eq_true_2.
    apply list_elem_of_In, in_map. exact Hit.
Qed.

Lemma check_news_twice_silent_witness :
  [case_item; blog_item] <> []
  /\ snd (check_news
            (fst (check_news [] [(1, new_user)] [case_item; blog_item] tick))
            [(1, new_user); (2, quiet_user)] [case_item; blog_item] tick)
     = [].
Proof.
  assert (Hfeed : [case_item; blog_item] <> []) by discriminate.
  split; [exact Hfeed|].
  exact (check_news_twice_silent [] [(1, new_user)]
           [(1, new_user); (2, quiet_user)] [case_item; blog_item] tick tick
           Hfeed).
Defined.

(** X20. For an hour after [check_news] has stored a non-empty list (the hour
    counted from the stamp of its first item), [show_news] does not fetch:
    it lists the first five stored items and leaves the cache as it is.
    An empty cache is always refreshed. *)
Theorem cache_served_within_hour news_cache user_data news_items
    (clock : nat -> datetime) (now : datetime) (fetched_later : list NewsItem)
    (clock' : nat -> datetime) :
  news_items <> [] ->
  now - clock 0%nat <= 3600 * 1000000 ->
  show_news (fst (check_news news_cache user_data news_items clock)) now
    fetched_later clock'
  = (stamp clock news_items, firstn 5 (stamp clock news_items))
  /\ show_news [] now fetched_later clock'
     = (stamp clock' fetched_later, firstn 5 (stamp clock' fetched_later)).
Proof.
  intros Hfeed Hage. split; [|reflexivity].
  destruct news_items as [|first rest]; [contradiction|].
  cbn [check_news fst]. unfold show_news, news_needs_update, stamp.
  rewrite imap_cons. cbn [fetched set_fetched].
  destruct (3600 * 1000000 <? now - clock 0%nat) eqn:Hold;
    [apply Z.ltb_lt in Hold; lia|reflexivity].
Qed.

Lemma cache_served_within_hour_witness :
  [case_item; blog_item] <> []
  /\ 2000 - tick 0 <= 3600 * 1000000
  /\ show_news
       (fst (check_news [] [(1, new_user)] [case_item; blog_item] tick))
       2000 [] tick
     = (stamp tick [case_item; blog_item],
        firstn 5 (stamp tick [case_item; blog_item])).
Proof.
  assert (Hfeed : [case_item; blog_item] <> []) by discriminate.
  assert (Hage : 2000 - tick 0 <= 3600 * 1000000) by (vm_compute; discriminate).
  split; [exact Hfeed|]. split; [exact Hage|].
  exact (proj1 (cache_served_within_hour [] [(1, new_user)]
                  [case_item; blog_item] tick 2000 [] tick Hfeed Hage)).
Defined.

End NewsFacts.

(** ** What the user is shown and sent *)

Section DisplayFacts.

Import Bot PriceAnalyzer Store.

(** X21. An item with fewer than five stored points is always listed with
    the badge 🟠 and described as risky: its score is the default 50, which
    is above neither threshold. *)
Theorem new_items_shown_risky (self : history) (item : pystr) :
  (length (series self item) < 5)%nat ->
  exists k,
    calculate_profit_potential self item = Val k
    /\ potential_badge k = Str.lit "🟠"
    /\ potential_advice k
       = Str.lit "💡 <b>Рекомендация:</b> 🔴 Рискованно".
Proof.
  intros Hfew. exists 50. unfold calculate_profit_potential, series in *.
  destruct (self !! item) as [hist|]; cbn [default from_option id] in Hfew.
  - apply Nat.ltb_lt in Hfew. rewrite Hfew. repeat split.
  - repeat split.
Qed.

Lemma new_items_shown_risky_witness :
  (length (series (observe (Str.lit "AK-47") steep_rise) (Str.lit "AK-47"))
   < 5)%nat
  /\ exists k,
       calculate_profit_potential (observe (Str.lit "AK-47") steep_rise)
         (Str.lit "AK-47") = Val k
       /\ potential_badge k = Str.lit "🟠"
       /\ potential_advice k
          = Str.lit "💡 <b>Рекомендация:</b> 🔴 Рискованно".
Proof.
  assert (Hfew : (length (series (observe (Str.lit "AK-47") steep_rise)
                            (Str.lit "AK-47")) < 5)%nat)
    by (vm_compute; lia).
  split; [exact Hfew|].
  exact (new_items_shown_risky _ _ Hfew).
Defined.

(** X22. Whoever is sent trading signals by [monitor_prices] is also sent
    the important news by [check_news]; a user in mode ['news'] is sent the
    news but never a trading signal. *)
Theorem signal_recipients_get_news (user_data : users) (uid : Z) :
  In uid (signal_recipients user_data) ->
  (forall it : NewsItem,
      exists alert, In alert (alerts_for user_data it)
                    /\ alert_to alert = uid /\ alert_title alert = title it)
  /\ exists u, In (uid, u) user_data /\ mode u <> Str.lit "news".
Proof.
  unfold signal_recipients. intros Hin. apply in_map_iff in Hin.
  destruct Hin as ([uid' u] & Hid & Hentry). cbn [fst] in Hid. subst uid'.
  apply List.filter_In in Hentry. destruct Hentry as [Hentry Hon].
  cbn [snd] in Hon. apply andb_true_iff in Hon. destruct Hon as [Hon Hmode].
  split.
  - intros it. eexists. split.
    + unfold alerts_for. apply in_map_iff. exists (uid, u).
      split; [reflexivity|]. apply List.filter_In. split; [exact Hentry|].
      exact Hon.
    + split; reflexivity.
  - exists u. split; [exact Hentry|].
    apply negb_true_iff, bool_decide_eq_false_1 in Hmode. exact Hmode.
Qed.

Lemma signal_recipients_get_news_witness :
  In 1 (signal_recipients [(1, new_user); (2, quiet_user)])
  /\ exists alert,
       In alert (alerts_for [(1, new_user); (2, quiet_user)] case_item)
       /\ alert_to alert = 1 /\ alert_title alert = title case_item.
Proof.
  assert (Hin : In 1 (signal_recipients [(1, new_user); (2, quiet_user)])).
  { unfold signal_recipients. apply in_map_iff. exists (1, new_user).
    split; [reflexivity|]. apply List.filter_In.
    split; [left; reflexivity|]. vm_compute. reflexivity. }
  split; [exact Hin|].
  exact (proj1 (signal_recipients_get_news _ 1 Hin) case_item).
Defined.

End DisplayFacts.
